(** * doctor_testerson: a doctest driver

    Shallow embedding of [src/doctor_testerson/__init__.py] and the
    properties of its target classification, target loop, exit status,
    result filtering, totals and percentage display. *)

From Stdlib Require Import ZArith QArith Qround List String Ascii Bool Lia.
From Stdlib Require Import Permutation Sorted DecimalString.
From Equations.Prop Require Import Equations Logic.
Import ListNotations.
Local Open Scope string_scope.
Local Open Scope Z_scope.

(** ** Python exceptions and fallible computations *)

(** The exceptions the driver can meet.  [NoPackageRoot] and [NotAFile]
    are the two plain [Exception]s raised by [to_module_name] and
    [resolve_target]; the others come from the interpreter and from the
    collaborators ([import_module], [doctest]). *)
Inductive PyError : Type :=
| NoPackageRoot (file_path : list string)
    (* Exception: failed to find poetry file pyproject.toml in ancestors *)
| NotAFile (target : string)
    (* Exception: expected target paths to be files *)
| ValueError (msg : string)
| TypeError (msg : string)
| ImportError (module_name : string)
| EngineError (msg : string)
| ZeroDivisionError.

Inductive result (A : Type) : Type :=
| Ok (a : A)
| Raise (e : PyError).
Arguments Ok {A} a.
Arguments Raise {A} e.

Definition is_ok {A} (r : result A) : bool :=
  match r with Ok _ => true | Raise _ => false end.

(** ** Paths

    A resolved path is absolute; it is modelled by its components below the
    anchor ["/"], so that [[]] is the filesystem root. *)
Module Path.

Definition t : Type := list string.

Definition eqb (p q : t) : bool :=
  if list_eq_dec string_dec p q then true else false.

(** [p.parent]; the root is its own parent. *)
Definition parent (p : t) : t := removelast p.

(** [p.name], the final component (empty for the root). *)
Definition name (p : t) : string := last p EmptyString.

(** [name.rfind(".")] *)
Fixpoint rfind_dot (s : string) : option nat :=
  match s with
  | EmptyString => None
  | String a s' =>
      match rfind_dot s' with
      | Some i => Some (S i)
      | None => if Ascii.eqb a "."%char then Some 0%nat else None
      end
  end.

(** The position at which pathlib splits a name into stem and suffix:
    the last dot, when it is neither the first nor the last character. *)
Definition split_point (n : string) : option nat :=
  match rfind_dot n with
  | Some i =>
      if (0 <? i)%nat && (i <? String.length n - 1)%nat then Some i else None
  | None => None
  end.

Definition suffix_of_name (n : string) : string :=
  match split_point n with
  | Some i => substring i (String.length n - i) n
  | None => EmptyString
  end.

Definition stem_of_name (n : string) : string :=
  match split_point n with
  | Some i => substring 0 i n
  | None => n
  end.

Definition suffix (p : t) : string := suffix_of_name (name p).
Definition stem (p : t) : string := stem_of_name (name p).

(** [p / s] for a single name [s]: pathlib drops an empty or ["."]
    component, any other name becomes a new last component. *)
Definition join1 (p : t) (s : string) : t :=
  if string_dec s EmptyString then p
  else if string_dec s "." then p
  else (p ++ [s])%list.

(** [p.relative_to(d)]: the components of [p] after those of [d];
    [ValueError] when [d] is not a prefix of [p]. *)
Fixpoint relative_to (p d : t) : result t :=
  match d, p with
  | [], _ => Ok p
  | x :: d', y :: p' =>
      if string_dec x y then relative_to p' d'
      else Raise (ValueError "not in the subpath")
  | _ :: _, [] => Raise (ValueError "not in the subpath")
  end.

(** [str(p)] *)
Definition to_string (p : t) : string :=
  match p with
  | [] => "/"
  | _ => String.concat EmptyString (map (fun s => "/" ++ s) p)
  end.

End Path.

(** ** The filesystem as the classifier sees it *)

Inductive EntryKind : Type := RegularFile | Directory | OtherEntry.

Definition FileSystem : Type := Path.t -> option EntryKind.

Definition exists_ (fs : FileSystem) (p : Path.t) : bool :=
  match fs p with Some _ => true | None => false end.

Definition is_file (fs : FileSystem) (p : Path.t) : bool :=
  match fs p with Some RegularFile => true | _ => false end.

Definition POETRY_FILENAME : string := "pyproject.toml".
Definition SETUP_FILENAME : string := "setup.py".

Definition is_poetry_root (fs : FileSystem) (dir : Path.t) : bool :=
  is_file fs (Path.join1 dir POETRY_FILENAME).

Definition is_setup_py_root (fs : FileSystem) (dir : Path.t) : bool :=
  is_file fs (Path.join1 dir SETUP_FILENAME)
  && negb (is_file fs (Path.join1 dir "__init__.py")).

Definition is_package_root (fs : FileSystem) (dir : Path.t) : bool :=
  is_poetry_root fs dir || is_setup_py_root fs dir.

(** The [while True] loop of [to_module_name]: climb from [dir] until a
    package root is met; at the filesystem root give up. *)
Equations? find_package_root (fs : FileSystem) (file_path dir : Path.t)
  : result Path.t by wf (List.length dir) lt :=
  find_package_root fs file_path dir with inspect (is_package_root fs dir) := {
    | exist _ true _ => Ok dir
    | exist _ false _ with inspect (Path.eqb (Path.parent dir) dir) := {
        | exist _ true _ => Raise (NoPackageRoot file_path)
        | exist _ false Hne => find_package_root fs file_path (Path.parent dir)
      }
  }.
Proof.
  assert (shorter : forall (l : Path.t) x,
             (List.length (removelast (x :: l)) < List.length (x :: l))%nat).
  { induction l as [|y l IH]; intros x; [simpl; lia|].
    specialize (IH y). simpl in *. lia. }
  destruct dir as [|x l]; [discriminate | apply shorter].
Qed.

Definition dotted (parts : list string) : string := String.concat "." parts.

Definition to_module_name (fs : FileSystem) (file_path : Path.t) : result string :=
  match find_package_root fs file_path (Path.parent file_path) with
  | Raise e => Raise e
  | Ok dir =>
      match Path.relative_to file_path dir with
      | Raise e => Raise e
      | Ok rel_path =>
          Ok (dotted (Path.join1 (Path.parent rel_path) (Path.stem rel_path)))
      end
  end.

(** ** Target resolution *)

(** The tagged pair returned by [resolve_target]:
    [("module", name)] or [("text_file", path)]. *)
Inductive Resolution : Type :=
| ModuleTarget (module_name : string)
| TextFileTarget (file_path : Path.t).

(** [resolve] stands for [Path(target).resolve()], which depends on the
    working directory and on symbolic links. *)
Definition resolve_target (resolve : string -> Path.t) (fs : FileSystem)
    (target : string) : result Resolution :=
  let path := resolve target in
  if negb (exists_ fs path) then Ok (ModuleTarget target)
  else if negb (is_file fs path) then Raise (NotAFile target)
  else if String.eqb (Path.suffix path) ".py" then
    match to_module_name fs path with
    | Ok module_name => Ok (ModuleTarget module_name)
    | Raise e => Raise e
    end
  else Ok (TextFileTarget path).

(** ** Results *)

(** [doctest.TestResults(failed, attempted)] *)
Record TestResults : Type := mkTestResults { failed : Z; attempted : Z }.

(** A loaded module, as far as the driver is concerned. *)
Inductive ModuleType : Type := LoadedModule (full_name : string).

(** Durations are kept as exact nanosecond counts of the monotonic clock;
    the unit conversion made for display is left to the renderer. *)
Definition Qty : Type := Z.

Record ModuleResult : Type := mkModuleResult {
  mr_target : string;
  mr_module_name : string;
  mr_module : ModuleType;
  mr_delta_t : Qty;
  mr_tests : TestResults
}.

Record TextFileResult : Type := mkTextFileResult {
  tf_target : string;
  tf_file_path : Path.t;
  tf_delta_t : Qty;
  tf_tests : TestResults
}.

(** [Union[ModuleResult, TextFileResult]] with the attributes both share. *)
Inductive TargetResult : Type :=
| OfModule (r : ModuleResult)
| OfTextFile (r : TextFileResult).

Definition target (r : TargetResult) : string :=
  match r with OfModule m => mr_target m | OfTextFile f => tf_target f end.

Definition name (r : TargetResult) : string :=
  match r with
  | OfModule m => mr_module_name m
  | OfTextFile f => Path.to_string (tf_file_path f)
  end.

Definition delta_t (r : TargetResult) : Qty :=
  match r with OfModule m => mr_delta_t m | OfTextFile f => tf_delta_t f end.

Definition tests (r : TargetResult) : TestResults :=
  match r with OfModule m => mr_tests m | OfTextFile f => tf_tests f end.

Definition tests_passed (r : TargetResult) : Z :=
  attempted (tests r) - failed (tests r).

(** ** Option flags of [doctest] *)

Definition NORMALIZE_WHITESPACE : Z := 4.
Definition ELLIPSIS : Z := 8.
Definition FAIL_FAST : Z := 1024.

Definition has_flag (flags flag : Z) : bool := Z.land flags flag =? flag.

(** ** Command line arguments, as parsed by [get_args] *)

Record Namespace : Type := mkArgs {
  verbose : Z;
  fail_fast : bool;
  empty : option bool;     (* None, or Some true for -e, Some false for -E *)
  panel : bool;
  targets : list string
}.

(** ** Collaborators and the state they act on *)

(** What one call of the doctest engine reports: the counts, and the time
    the monotonic clock advanced during the call. *)
Record EngineRun : Type := mkRun { run_tests : TestResults; run_ns : Z }.

Record Env : Type := mkEnv {
  resolve : string -> Path.t;
  fs : FileSystem;
  import_module : string -> result ModuleType;
  testmod : ModuleType -> Z -> result EngineRun;
  testfile : string -> Z -> result EngineRun
}.

(** The observable steps of a run, in the order they happen. *)
Inductive Event : Type :=
| EvResolve (target : string)
| EvImport (module_name : string)
| EvTestmod (m : ModuleType) (option_flags : Z)
| EvTestfile (filename : string) (option_flags : Z)
| EvHeaderPanel (targets : list string).

Record World : Type := mkWorld { clock : Z; trace : list Event }.

(** State passing with exceptions: the state survives a raise. *)
Definition M (A : Type) : Type := World -> result A * World.

Definition ret {A} (a : A) : M A := fun w => (Ok a, w).

Definition bind {A B} (c : M A) (k : A -> M B) : M B :=
  fun w => match c w with
           | (Ok a, w') => k a w'
           | (Raise e, w') => (Raise e, w')
           end.

Notation "x <- c ;; k" := (bind c (fun x => k))
  (at level 61, c at next level, right associativity).

Definition emit (ev : Event) : M unit :=
  fun w => (Ok tt, mkWorld (clock w) (trace w ++ [ev])).

Definition lift {A} (r : result A) : M A := fun w => (r, w).

(** [now()], the reading of [monotonic_ns]. *)
Definition now : M Qty := fun w => (Ok (clock w), w).

Definition advance (ns : Z) : M unit :=
  fun w => (Ok tt, mkWorld (clock w + ns) (trace w)).

Section Driver.

Variable env : Env.

Definition run_engine (ev : Event) (r : result EngineRun) : M TestResults :=
  _ <- emit ev ;;
  run <- lift r ;;
  _ <- advance (run_ns run) ;;
  ret (run_tests run).

Definition test_module (target module_name : string) (option_flags : Z)
  : M TargetResult :=
  _ <- emit (EvImport module_name) ;;
  module <- lift (import_module env module_name) ;;
  t_start <- now ;;
  results <- run_engine (EvTestmod module option_flags)
                        (testmod env module option_flags) ;;
  t_end <- now ;;
  ret (OfModule (mkModuleResult target module_name module
                                (t_end - t_start) results)).

Definition test_text_file (target : string) (file_path : Path.t)
    (option_flags : Z) : M TargetResult :=
  t_start <- now ;;
  results <- run_engine (EvTestfile (Path.to_string file_path) option_flags)
                        (testfile env (Path.to_string file_path) option_flags) ;;
  t_end <- now ;;
  ret (OfTextFile (mkTextFileResult target file_path
                                    (t_end - t_start) results)).

Definition option_flags_of (args : Namespace) : Z :=
  let option_flags := Z.lor NORMALIZE_WHITESPACE ELLIPSIS in
  if fail_fast args then Z.lor option_flags FAIL_FAST else option_flags.

(** The final [else: raise TypeError] of the source has no counterpart:
    a [Resolution] carries one of the two tags. *)
Definition test_target (target : string) (args : Namespace) : M TargetResult :=
  let option_flags := option_flags_of args in
  _ <- emit (EvResolve target) ;;
  resolution <- lift (resolve_target (resolve env) (fs env) target) ;;
  match resolution with
  | ModuleTarget module_name => test_module target module_name option_flags
  | TextFileTarget file_path => test_text_file target file_path option_flags
  end.

(** The condition under which [test_targets] appends a result. *)
Definition keeps (args : Namespace) (result : TargetResult) : bool :=
  match empty args with
  | None => true
  | Some true => attempted (tests result) =? 0
  | Some false => negb (attempted (tests result) =? 0)
  end.

(** The [for] loop of [test_targets], with [results] as accumulator. *)
Fixpoint test_targets_from (args : Namespace) (todo : list string)
    (results : list TargetResult) : M (list TargetResult) :=
  match todo with
  | [] => ret results
  | target :: todo' =>
      result <- test_target target args ;;
      test_targets_from args todo'
        (if keeps args result then (results ++ [result])%list else results)
  end.

Definition test_targets (args : Namespace) : M (list TargetResult) :=
  test_targets_from args (targets args) [].

Definition has_errors (results : list TargetResult) : bool :=
  existsb (fun result => failed (tests result) >? 0) results.

End Driver.

(** ** Reporting *)

(** [rich.text.Text(plain, style=...)] *)
Record Text : Type := mkText { plain : string; style : string }.

(** Python's [str] of an integer. *)
Definition str_of_int (z : Z) : string :=
  DecimalString.NilZero.string_of_int (Z.to_int z).

(** The floating point operations [percent] relies on.  [int_truediv n d]
    is the value of [n / d] between two integers when [d] is not zero. *)
Class PyFloat : Type := {
  float : Type;
  int_truediv : Z -> Z -> float;
  float_mul_int : float -> Z -> float;
  float_round : float -> Z
}.

Section Report.

Context {FL : PyFloat}.

(** [numerator / denominator]: raises on a zero divisor. *)
Definition truediv (numerator denominator : Z) : result float :=
  if denominator =? 0 then Raise ZeroDivisionError
  else Ok (int_truediv numerator denominator).

Definition percent (numerator denominator : Z) : result Text :=
  if denominator =? 0 then Ok (mkText "-" "bright black")
  else
    match truediv numerator denominator with
    | Raise e => Raise e
    | Ok quotient =>
        let number := float_round (float_mul_int quotient 100) in
        let string := str_of_int number ++ "%" in
        if number =? 100 then Ok (mkText string "bold green")
        else Ok (mkText string "bold red")
    end.

(** One row of the results table, before rendering. *)
Record Row : Type := mkRow {
  row_test : string;
  row_delta_t : Qty;
  row_passed : Z;
  row_failed : Z;
  row_percent : Text
}.

(** The table handed to the console: one row per result, a separator,
    and the summary row. *)
Record Table : Type := mkTable { body : list Row; summary : Row }.

(** [sorted(results, key=lambda r: r.name)]: a stable sort on names. *)
Fixpoint insert_by_name (r : TargetResult) (sorted : list TargetResult)
  : list TargetResult :=
  match sorted with
  | [] => [r]
  | r' :: rest =>
      if String.leb (name r) (name r') then r :: sorted
      else r' :: insert_by_name r rest
  end.

Definition sorted_by_name (results : list TargetResult) : list TargetResult :=
  fold_right insert_by_name [] results.

Definition row_of (r : TargetResult) : result Row :=
  match percent (tests_passed r) (attempted (tests r)) with
  | Raise e => Raise e
  | Ok pct =>
      Ok (mkRow (name r) (delta_t r) (tests_passed r) (failed (tests r)) pct)
  end.

Fixpoint rows_of (results : list TargetResult) : result (list Row) :=
  match results with
  | [] => Ok []
  | r :: rest =>
      match row_of r with
      | Raise e => Raise e
      | Ok row =>
          match rows_of rest with
          | Raise e => Raise e
          | Ok rows => Ok (row :: rows)
          end
      end
  end.

(** The four running totals of [main]. *)
Record Totals : Type := mkTotals {
  total_delta_t : Qty;
  total_attempted : Z;
  total_passed : Z;
  total_failed : Z
}.

Definition zero_totals : Totals := mkTotals 0 0 0 0.

(** One pass of the summing loop. *)
Definition add_result (acc : Totals) (result : TargetResult) : Totals :=
  mkTotals (total_delta_t acc + delta_t result)
           (total_attempted acc + attempted (tests result))
           (total_passed acc + tests_passed result)
           (total_failed acc + failed (tests result)).

Definition sum_totals (results : list TargetResult) : Totals :=
  fold_left add_result results zero_totals.

Definition build_table (results : list TargetResult) : result Table :=
  match rows_of (sorted_by_name results) with
  | Raise e => Raise e
  | Ok rows =>
      let t := sum_totals results in
      match percent (total_passed t) (total_attempted t) with
      | Raise e => Raise e
      | Ok pct =>
          Ok (mkTable rows
                (mkRow "[bold]Total[/]" (total_delta_t t) (total_passed t)
                       (total_failed t) pct))
      end
  end.

(** How an invocation ends. *)
Inductive Outcome : Type :=
| Printed (table : Table)      (* [main] returns after printing *)
| SysExit (code : Z)           (* [sys.exit(code)] *)
| Uncaught (e : PyError).      (* an exception leaves [main] *)

Definition main (env : Env) (args : Namespace) (w : World) : Outcome * World :=
  let w0 := if panel args
            then snd (emit (EvHeaderPanel (targets args)) w) else w in
  match test_targets env args w0 with
  | (Raise e, w1) => (Uncaught e, w1)
  | (Ok results, w1) =>
      if fail_fast args && has_errors results then (SysExit 1, w1)
      else match build_table results with
           | Raise e => (Uncaught e, w1)
           | Ok table => (Printed table, w1)
           end
  end.


End Report.

Definition init_world : World := mkWorld 0 [].

(** ** What one target contributes

    The value, the events and the clock advance of one call of
    [test_target], read off its definition; they do not depend on the state
    the call starts in. *)

Definition target_result (env : Env) (target : string) (args : Namespace)
  : result TargetResult :=
  match resolve_target (resolve env) (fs env) target with
  | Raise e => Raise e
  | Ok (ModuleTarget module_name) =>
      match import_module env module_name with
      | Raise e => Raise e
      | Ok module =>
          match testmod env module (option_flags_of args) with
          | Raise e => Raise e
          | Ok run =>
              Ok (OfModule (mkModuleResult target module_name module
                                           (run_ns run) (run_tests run)))
          end
      end
  | Ok (TextFileTarget file_path) =>
      match testfile env (Path.to_string file_path) (option_flags_of args) with
      | Raise e => Raise e
      | Ok run =>
          Ok (OfTextFile (mkTextFileResult target file_path
                                           (run_ns run) (run_tests run)))
      end
  end.

Definition target_events (env : Env) (target : string) (args : Namespace)
  : list Event :=
  EvResolve target ::
  match resolve_target (resolve env) (fs env) target with
  | Raise _ => []
  | Ok (ModuleTarget module_name) =>
      EvImport module_name ::
      match import_module env module_name with
      | Raise _ => []
      | Ok module => [EvTestmod module (option_flags_of args)]
      end
  | Ok (TextFileTarget file_path) =>
      [EvTestfile (Path.to_string file_path) (option_flags_of args)]
  end.

Definition target_ns (env : Env) (target : string) (args : Namespace) : Z :=
  match target_result env target args with
  | Ok r => delta_t r
  | Raise _ => 0
  end.

(** The results of the targets of [todo] in order, up to the first raise. *)
Fixpoint each_result (env : Env) (args : Namespace) (todo : list string)
  : result (list TargetResult) :=
  match todo with
  | [] => Ok []
  | t :: rest =>
      match target_result env t args with
      | Raise e => Raise e
      | Ok r =>
          match each_result env args rest with
          | Raise e => Raise e
          | Ok rs => Ok (r :: rs)
          end
      end
  end.

(** The targets [test_target] is called on: all of them, or those up to
    and including the first one that raises. *)
Fixpoint processed (env : Env) (args : Namespace) (todo : list string)
  : list string :=
  match todo with
  | [] => []
  | t :: rest =>
      t :: (if is_ok (target_result env t args)
            then processed env args rest else [])
  end.

(** The targets whose classification shows in a trace. *)
Definition resolved_targets (tr : list Event) : list string :=
  flat_map (fun ev => match ev with EvResolve t => [t] | _ => [] end) tr.

(** The option flags of the engine calls in a trace. *)
Definition engine_flags (tr : list Event) : list Z :=
  flat_map (fun ev => match ev with
                      | EvTestmod _ f => [f]
                      | EvTestfile _ f => [f]
                      | _ => []
                      end) tr.

(** ** The filter and the sums, as the specification words them *)

Inductive EmptyMode : Type := All | OnlyEmpty | OnlyNonEmpty.

Definition mode_of (empty : option bool) : EmptyMode :=
  match empty with
  | None => All
  | Some true => OnlyEmpty
  | Some false => OnlyNonEmpty
  end.

Definition in_mode (mode : EmptyMode) (r : TargetResult) : bool :=
  match mode with
  | All => true
  | OnlyEmpty => attempted (tests r) =? 0
  | OnlyNonEmpty => negb (attempted (tests r) =? 0)
  end.

Definition filter_by_mode (mode : EmptyMode) (results : list TargetResult)
  : list TargetResult :=
  filter (in_mode mode) results.

(** The arguments with the empty-filter left out. *)
Definition unfiltered (args : Namespace) : Namespace :=
  mkArgs (verbose args) (fail_fast args) None (panel args) (targets args).

Definition map_ok {A B} (f : A -> B) (r : result A) : result B :=
  match r with Ok a => Ok (f a) | Raise e => Raise e end.

(** The sum of a field over a list of results. *)
Definition sum_of (field : TargetResult -> Z) (results : list TargetResult) : Z :=
  fold_right (fun r acc => field r + acc) 0 results.

(** What the driver relies on from [doctest]: the failures are among the
    examples tried. *)
Definition counts_in_range (t : TestResults) : Prop :=
  0 <= failed t <= attempted t.

Definition engine_counts_in_range (env : Env) : Prop :=
  (forall m flags run,
      testmod env m flags = Ok run -> counts_in_range (run_tests run))
  /\ (forall filename flags run,
         testfile env filename flags = Ok run ->
         counts_in_range (run_tests run)).

(** ** Concrete collaborators, for running the driver *)

(** Exact rational arithmetic with round-half-to-even, standing in for
    binary floating point. *)
Definition round_half_even (q : Q) : Z :=
  let fl := Qfloor q in
  match Qcompare (q - inject_Z fl) (1 # 2) with
  | Lt => fl
  | Gt => fl + 1
  | Eq => if Z.even fl then fl else fl + 1
  end.

Definition ExactFloat : PyFloat :=
  {| float := Q;
     int_truediv := fun n d => (inject_Z n / inject_Z d)%Q;
     float_mul_int := fun q k => (q * inject_Z k)%Q;
     float_round := round_half_even |}.

Fixpoint split_on (c : ascii) (s : string) : list string :=
  match s with
  | EmptyString => [EmptyString]
  | String a s' =>
      if Ascii.eqb a c then EmptyString :: split_on c s'
      else match split_on c s' with
           | h :: t => String a h :: t
           | [] => [String a EmptyString]
           end
  end.

(** [Path(target).resolve()] on a filesystem without symbolic links, for
    the working directory [cwd]. *)
Definition posix_resolve (cwd : Path.t) (target : string) : Path.t :=
  fold_left
    (fun acc c =>
       if string_dec c EmptyString then acc
       else if string_dec c "." then acc
       else if string_dec c ".." then removelast acc
       else (acc ++ [c])%list)
    (split_on "/"%char target)
    (if String.prefix "/" target then [] else cwd).

Definition fs_of (entries : list (Path.t * EntryKind)) : FileSystem :=
  fun p =>
    match find (fun e => Path.eqb (fst e) p) entries with
    | Some e => Some (snd e)
    | None => None
    end.

(** A stand-in for the doctest runner: the examples of a document are
    given by their outcomes ([true] for a pass), and are counted in order;
    under [FAIL_FAST] counting stops at the first failure. *)
Fixpoint count_examples (stop_at_failure : bool) (outcomes : list bool)
    (acc : TestResults) : TestResults :=
  match outcomes with
  | [] => acc
  | ok :: rest =>
      let acc' := mkTestResults (failed acc + (if ok then 0 else 1))
                                (attempted acc + 1) in
      if negb ok && stop_at_failure then acc'
      else count_examples stop_at_failure rest acc'
  end.

Definition scripted_run (documents : list (string * list bool))
    (doc : string) (option_flags : Z) : result EngineRun :=
  match find (fun d => String.eqb (fst d) doc) documents with
  | Some d =>
      Ok (mkRun (count_examples (has_flag option_flags FAIL_FAST) (snd d)
                                (mkTestResults 0 0))
                (1000 * Z.of_nat (List.length (snd d))))
  | None => Ok (mkRun (mkTestResults 0 0) 0)
  end.

Definition demo_fs : FileSystem :=
  fs_of [ (["proj"], Directory);
          (["proj"; "pyproject.toml"], RegularFile);
          (["proj"; "README.md"], RegularFile);
          (["proj"; "pkg"], Directory);
          (["proj"; "pkg"; "sub"], Directory);
          (["proj"; "pkg"; "sub"; "mod.py"], RegularFile);
          (["lonely"], Directory);
          (["lonely"; "x.py"], RegularFile) ].

Definition demo_documents : list (string * list bool) :=
  [ ("pkg.sub.mod", [true; false; true]);
    ("/proj/README.md", [true]);
    ("all.green", [true; true]);
    ("no.examples", []) ].

Definition demo_env : Env :=
  {| resolve := posix_resolve ["proj"];
     fs := demo_fs;
     import_module := fun n =>
       if String.eqb n "not.importable" then Raise (ImportError n)
       else Ok (LoadedModule n);
     testmod := fun m flags =>
       match m with LoadedModule n => scripted_run demo_documents n flags end;
     testfile := scripted_run demo_documents |}.

Definition demo_args (ff : bool) (e : option bool) (ts : list string) : Namespace :=
  mkArgs 0 ff e false ts.

(** ** The header panel

    [print_header_panel] lists one item per target: the target relative to
    the working directory when [Path(target).relative_to(cwd)] succeeds, the
    target as given when it raises [ValueError]. *)

(** [Path(target)], not resolved: the root pathlib keeps (none, one slash,
    or two for a path starting with exactly two) and the components, among
    which empty ones and ["."] are dropped. *)
Record PurePath : Type := mkPurePath {
  pure_root : string;
  pure_parts : list string
}.

Definition parse_path (s : string) : PurePath :=
  mkPurePath
    (if String.prefix "//" s && negb (String.prefix "///" s) then "//"
     else if String.prefix "/" s then "/"
     else EmptyString)
    (filter (fun c => negb (String.eqb c EmptyString || String.eqb c "."))
            (split_on "/"%char s)).

(** [str(p)] *)
Definition pure_to_string (p : PurePath) : string :=
  match pure_parts p with
  | [] => if String.eqb (pure_root p) EmptyString then "." else pure_root p
  | parts => pure_root p ++ String.concat "/" parts
  end.

(** [p.relative_to(cwd)] for the absolute directory [cwd]. *)
Definition pure_relative_to (p : PurePath) (cwd : Path.t) : result PurePath :=
  if String.eqb (pure_root p) "/" then
    match Path.relative_to (pure_parts p) cwd with
    | Ok rest => Ok (mkPurePath EmptyString rest)
    | Raise e => Raise e
    end
  else Raise (ValueError "not in the subpath").

Definition panel_item (cwd : Path.t) (target : string) : string :=
  match pure_relative_to (parse_path target) cwd with
  | Ok rel => pure_to_string rel
  | Raise _ => target
  end.

Definition panel_items (cwd : Path.t) (targets : list string) : list string :=
  map (panel_item cwd) targets.

(** The arguments with the empty-filter set to [e]. *)
Definition with_empty (args : Namespace) (e : option bool) : Namespace :=
  mkArgs (verbose args) (fail_fast args) e (panel args) (targets args).

(** The order [sorted] puts the results in. *)
Definition name_le (r r' : TargetResult) : Prop :=
  String.leb (name r) (name r') = true.

(** * Properties *)

Local Open Scope list_scope.

Example demo_run :
  fst (test_targets demo_env
         (demo_args false None ["pkg/sub/mod.py"; "README.md"; "no.examples"])
         init_world)
  = Ok [ OfModule (mkModuleResult "pkg/sub/mod.py" "pkg.sub.mod"
                     (LoadedModule "pkg.sub.mod") 3000 (mkTestResults 1 3));
         OfTextFile (mkTextFileResult "README.md" ["proj"; "README.md"] 1000
                       (mkTestResults 0 1));
         OfModule (mkModuleResult "no.examples" "no.examples"
                     (LoadedModule "no.examples") 0 (mkTestResults 0 0)) ].
Proof. vm_compute. reflexivity. Qed.

(** ** Paths and the upward walk *)

Lemma parent_snoc (p : Path.t) (x : string) :
  Path.parent (p ++ [x]) = p.
Proof. unfold Path.parent. apply removelast_last. Qed.

Lemma name_snoc (p : Path.t) (x : string) : Path.name (p ++ [x]) = x.
Proof. unfold Path.name. apply last_last. Qed.

Lemma path_eqb_eq (p q : Path.t) : Path.eqb p q = true <-> p = q.
Proof.
  unfold Path.eqb. destruct (list_eq_dec string_dec p q); split; congruence.
Qed.

Lemma parent_is_self (dir : Path.t) :
  Path.eqb (Path.parent dir) dir = true <-> dir = [].
Proof.
  rewrite path_eqb_eq. split; [|intros ->; reflexivity].
  destruct dir as [|x l] using rev_ind; [reflexivity|].
  rewrite parent_snoc. intros E.
  apply (f_equal (@List.length string)) in E.
  rewrite length_app in E. simpl in E. lia.
Qed.

Lemma parent_of_snoc_differs (p : Path.t) (x : string) :
  Path.eqb p (p ++ [x]) = false.
Proof.
  destruct (Path.eqb p (p ++ [x])) eqn:E; [|reflexivity].
  apply path_eqb_eq in E. apply (f_equal (@List.length string)) in E.
  rewrite length_app in E. simpl in E. lia.
Qed.

Lemma path_split (p : Path.t) :
  p <> [] -> p = (Path.parent p ++ [Path.name p])%list.
Proof.
  intros Hp. unfold Path.parent, Path.name. now apply app_removelast_last.
Qed.

Lemma relative_to_prefix (d rel : Path.t) :
  Path.relative_to (d ++ rel) d = Ok rel.
Proof.
  induction d as [|x d IH]; simpl.
  - destruct rel; reflexivity.
  - destruct (string_dec x x); [exact IH | congruence].
Qed.

Lemma find_package_root_step fs (f dir : Path.t) :
  find_package_root fs f dir =
  if is_package_root fs dir then Ok dir
  else if Path.eqb (Path.parent dir) dir then Raise (NoPackageRoot f)
  else find_package_root fs f (Path.parent dir).
Proof.
  funelim (find_package_root fs f dir);
    repeat match goal with
           | H : is_package_root _ _ = _ |- _ => rewrite H
           | H : Path.eqb _ _ = _ |- _ => rewrite H
           end; reflexivity.
Qed.

(** The walk stops at the nearest package root above (or at) its start. *)
Lemma find_package_root_nearest fs (f root dirs : Path.t) :
  is_package_root fs root = true ->
  (forall k, (0 < k <= List.length dirs)%nat ->
             is_package_root fs (root ++ firstn k dirs) = false) ->
  find_package_root fs f (root ++ dirs) = Ok root.
Proof.
  intros Hroot. induction dirs as [|x ds IH] using rev_ind; intros Hnot.
  - rewrite app_nil_r, find_package_root_step, Hroot. reflexivity.
  - rewrite find_package_root_step.
    assert (Hlast : is_package_root fs (root ++ ds ++ [x]) = false).
    { specialize (Hnot (List.length (ds ++ [x]))).
      rewrite firstn_all in Hnot. apply Hnot.
      rewrite length_app. simpl. lia. }
    rewrite Hlast, app_assoc, parent_snoc.
    rewrite parent_of_snoc_differs. apply IH. intros k Hk.
    specialize (Hnot k). rewrite length_app in Hnot. simpl in Hnot.
    rewrite firstn_app in Hnot.
    replace (k - List.length ds)%nat with 0%nat in Hnot by lia.
    simpl in Hnot. rewrite app_nil_r in Hnot. apply Hnot. lia.
Qed.

(** Without any package root on the way up, the walk ends in the raise. *)
Lemma find_package_root_none fs (f dir : Path.t) :
  (forall k, (k <= List.length dir)%nat ->
             is_package_root fs (firstn k dir) = false) ->
  find_package_root fs f dir = Raise (NoPackageRoot f).
Proof.
  induction dir as [|x ds IH] using rev_ind; intros Hnot.
  - rewrite find_package_root_step.
    pose proof (Hnot 0%nat (le_n _)) as H0. simpl in H0.
    rewrite H0. reflexivity.
  - rewrite find_package_root_step.
    pose proof (Hnot (List.length (ds ++ [x])) (le_n _)) as Hlast.
    rewrite firstn_all in Hlast. rewrite Hlast, parent_snoc.
    rewrite parent_of_snoc_differs. apply IH. intros k Hk. specialize (Hnot k).
      rewrite length_app in Hnot. simpl in Hnot.
      rewrite firstn_app in Hnot.
      replace (k - List.length ds)%nat with 0%nat in Hnot by lia.
      simpl in Hnot. rewrite app_nil_r in Hnot. apply Hnot. lia.
Qed.

Lemma suffix_py_nonempty (p : Path.t) : Path.suffix p = ".py" -> p <> [].
Proof. intros H ->. discriminate H. Qed.

Lemma substring_all (s : string) : substring 0 (String.length s) s = s.
Proof. induction s as [|a s IH]; simpl; [reflexivity | now rewrite IH]. Qed.

Lemma substring_cut (s : string) (i : nat) :
  (i <= String.length s)%nat ->
  (substring 0 i s ++ substring i (String.length s - i) s)%string = s.
Proof.
  revert i. induction s as [|a s IH]; intros [|i] Hi; simpl in *; try lia.
  - reflexivity.
  - now rewrite substring_all.
  - rewrite IH by lia. reflexivity.
Qed.

Lemma rfind_dot_bound (s : string) (i : nat) :
  Path.rfind_dot s = Some i -> (i < String.length s)%nat.
Proof.
  revert i. induction s as [|a s IH]; intros i; simpl; [discriminate|].
  destruct (Path.rfind_dot s) as [j|].
  - intros [= <-]. specialize (IH j eq_refl). lia.
  - destruct (Ascii.eqb a "."); intros [= <-]. lia.
Qed.

(** A name is its stem followed by its suffix. *)
Lemma stem_suffix (n : string) :
  (Path.stem_of_name n ++ Path.suffix_of_name n)%string = n.
Proof.
  unfold Path.stem_of_name, Path.suffix_of_name, Path.split_point.
  destruct (Path.rfind_dot n) as [i|] eqn:E.
  - destruct ((0 <? i)%nat && (i <? String.length n - 1)%nat).
    + apply substring_cut. apply rfind_dot_bound in E. lia.
    + clear. induction n; simpl; congruence.
  - clear. induction n; simpl; congruence.
Qed.

(** A component other than the empty one and ["."] is appended as it is. *)
Lemma join1_ordinary (p : Path.t) (s : string) :
  s <> EmptyString -> s <> "." -> Path.join1 p s = p ++ [s].
Proof.
  intros H1 H2. unfold Path.join1.
  destruct (string_dec s EmptyString); [congruence|].
  destruct (string_dec s "."); [congruence|reflexivity].
Qed.

Lemma to_module_name_nearest fs (path root dirs : Path.t) :
  path <> [] ->
  Path.parent path = root ++ dirs ->
  is_package_root fs root = true ->
  (forall k, (0 < k <= List.length dirs)%nat ->
             is_package_root fs (root ++ firstn k dirs) = false) ->
  to_module_name fs path = Ok (dotted (Path.join1 dirs (Path.stem path))).
Proof.
  intros Hne Hparent Hroot Hnearest. unfold to_module_name.
  rewrite Hparent, (find_package_root_nearest fs path root dirs Hroot Hnearest).
  rewrite (path_split path Hne) at 1. rewrite Hparent, <- app_assoc.
  rewrite relative_to_prefix, parent_snoc.
  unfold Path.stem. rewrite name_snoc. reflexivity.
Qed.

(** C4: an existing regular [.py] file is classified as the module whose
    dotted name is read off the path below the nearest package root above
    the file: the directory components followed by the file stem, the stem
    being the file name without its [.py]; a [mod.py] two directories
    ([pkg/sub]) below a directory holding [pyproject.toml] gives
    [pkg.sub.mod]; and with no package root among the ancestors, up to the
    filesystem root, classification raises. *)
Theorem py_file_resolves_to_dotted_name :
  forall (resolve : string -> Path.t) (fs : FileSystem) (target : string),
    is_file fs (resolve target) = true ->
    Path.suffix (resolve target) = ".py" ->
    (forall root dirs,
        Path.parent (resolve target) = root ++ dirs ->
        is_package_root fs root = true ->
        (forall k, (0 < k <= List.length dirs)%nat ->
                   is_package_root fs (root ++ firstn k dirs) = false) ->
        resolve_target resolve fs target
        = Ok (ModuleTarget
                (dotted (Path.join1 dirs (Path.stem (resolve target))))))
    /\ Path.name (resolve target)
       = (Path.stem (resolve target) ++ ".py")%string
    /\ (forall root,
           resolve target = root ++ ["pkg"; "sub"; "mod.py"] ->
           is_poetry_root fs root = true ->
           is_package_root fs (root ++ ["pkg"]) = false ->
           is_package_root fs (root ++ ["pkg"; "sub"]) = false ->
           resolve_target resolve fs target = Ok (ModuleTarget "pkg.sub.mod"))
    /\ ((forall k, (k <= List.length (Path.parent (resolve target)))%nat ->
                   is_package_root fs (firstn k (Path.parent (resolve target)))
                   = false) ->
        resolve_target resolve fs target
        = Raise (NoPackageRoot (resolve target))).
Proof.
  intros resolve fs target Hfile Hpy.
  assert (Hex : exists_ fs (resolve target) = true).
  { unfold is_file in Hfile. unfold exists_.
    destruct (fs (resolve target)); [reflexivity|discriminate]. }
  assert (Hne : resolve target <> []) by (now apply suffix_py_nonempty).
  assert (Hstep : resolve_target resolve fs target =
                  match to_module_name fs (resolve target) with
                  | Ok module_name => Ok (ModuleTarget module_name)
                  | Raise e => Raise e
                  end).
  { unfold resolve_target. rewrite Hex, Hfile, Hpy. reflexivity. }
  repeat split.
  - intros root dirs Hparent Hroot Hnearest.
    rewrite Hstep, (to_module_name_nearest fs _ _ _ Hne Hparent Hroot Hnearest).
    reflexivity.
  - unfold Path.suffix in Hpy. unfold Path.stem.
    rewrite <- Hpy. symmetry. apply stem_suffix.
  - intros root Hpath Hpoetry Hpkg Hsub.
    rewrite Hstep.
    rewrite (to_module_name_nearest fs (resolve target) root ["pkg"; "sub"]).
    + unfold Path.stem. rewrite Hpath.
      change (root ++ ["pkg"; "sub"; "mod.py"])
        with (root ++ ["pkg"; "sub"] ++ ["mod.py"]).
      rewrite app_assoc, name_snoc. reflexivity.
    + exact Hne.
    + rewrite Hpath.
      change (root ++ ["pkg"; "sub"; "mod.py"])
        with (root ++ ["pkg"; "sub"] ++ ["mod.py"]).
      rewrite app_assoc. apply parent_snoc.
    + unfold is_package_root. rewrite Hpoetry. reflexivity.
    + intros [|[|[|k]]] Hk; simpl in *; try lia; assumption.
  - intros Hnone. rewrite Hstep. unfold to_module_name.
    rewrite (find_package_root_none fs (resolve target) _ Hnone). reflexivity.
Qed.

Lemma py_file_resolves_to_dotted_name_witness :
  resolve_target (posix_resolve ["proj"]) demo_fs "pkg/sub/mod.py"
  = Ok (ModuleTarget "pkg.sub.mod")
  /\ resolve_target (posix_resolve ["proj"]) demo_fs "../lonely/x.py"
     = Raise (NoPackageRoot ["lonely"; "x.py"]).
Proof.
  split.
  - destruct (@py_file_resolves_to_dotted_name
                (posix_resolve ["proj"]) demo_fs "pkg/sub/mod.py"
                eq_refl eq_refl) as (_ & _ & H & _).
    apply (H ["proj"]); reflexivity.
  - destruct (@py_file_resolves_to_dotted_name
                (posix_resolve ["proj"]) demo_fs "../lonely/x.py"
                eq_refl eq_refl) as (_ & _ & _ & H).
    apply H. intros [|[|k]] Hk; [reflexivity | reflexivity | simpl in Hk; lia].
Defined.

(** C5: a target with no filesystem entry at its resolved path is
    classified as a module named by the target string itself, unchanged;
    a path that exists without being a regular file makes classification
    raise. *)
Theorem missing_path_is_module_non_file_raises :
  forall (resolve : string -> Path.t) (fs : FileSystem) (target : string),
    (exists_ fs (resolve target) = false ->
     resolve_target resolve fs target = Ok (ModuleTarget target))
    /\ (exists_ fs (resolve target) = true ->
        is_file fs (resolve target) = false ->
        resolve_target resolve fs target = Raise (NotAFile target)).
Proof.
  intros resolve fs target. unfold resolve_target. split.
  - intros ->. reflexivity.
  - intros -> ->. reflexivity.
Qed.

Lemma missing_path_is_module_non_file_raises_witness :
  resolve_target (posix_resolve ["proj"]) demo_fs "os.path"
  = Ok (ModuleTarget "os.path")
  /\ resolve_target (posix_resolve ["proj"]) demo_fs "pkg/sub"
     = Raise (NotAFile "pkg/sub").
Proof.
  split.
  - apply (proj1 (missing_path_is_module_non_file_raises
                    (posix_resolve ["proj"]) demo_fs "os.path")).
    reflexivity.
  - apply (proj2 (missing_path_is_module_non_file_raises
                    (posix_resolve ["proj"]) demo_fs "pkg/sub"));
      reflexivity.
Defined.

(** ** One target, then the loop *)

Lemma test_target_run (env : Env) (t : string) (args : Namespace) (w : World) :
  test_target env t args w
  = (target_result env t args,
     mkWorld (clock w + target_ns env t args)
             (trace w ++ target_events env t args)).
Proof.
  unfold test_target, target_result, target_ns, target_result, target_events.
  unfold bind, emit, lift. simpl.
  destruct (resolve_target (resolve env) (fs env) t) as [[n|p]|e]; simpl.
  - unfold test_module, run_engine, bind, emit, lift, now, advance, ret. simpl.
    destruct (import_module env n) as [m|e]; simpl.
    + destruct (testmod env m (option_flags_of args)) as [run|e]; simpl.
      * rewrite <- !app_assoc. simpl. repeat f_equal. lia.
      * rewrite <- !app_assoc, Z.add_0_r. reflexivity.
    + rewrite <- !app_assoc, Z.add_0_r. reflexivity.
  - unfold test_text_file, run_engine, bind, emit, lift, now, advance, ret.
    simpl.
    destruct (testfile env (Path.to_string p) (option_flags_of args))
      as [run|e]; simpl.
    + rewrite <- !app_assoc. simpl. repeat f_equal. lia.
    + rewrite <- !app_assoc, Z.add_0_r. reflexivity.
  - rewrite Z.add_0_r. reflexivity.
Qed.

Lemma test_targets_from_value (env : Env) (args : Namespace) :
  forall (todo : list string) (acc : list TargetResult) (w : World),
    fst (test_targets_from env args todo acc w)
    = match each_result env args todo with
      | Ok rs => Ok (acc ++ filter (keeps args) rs)
      | Raise e => Raise e
      end.
Proof.
  induction todo as [|t rest IH]; intros acc w; simpl.
  - rewrite app_nil_r. reflexivity.
  - unfold bind. rewrite test_target_run.
    destruct (target_result env t args) as [r|e]; [|reflexivity].
    rewrite IH.
    destruct (each_result env args rest) as [rs|e]; [|reflexivity].
    simpl. destruct (keeps args r); [|reflexivity].
    rewrite <- app_assoc. reflexivity.
Qed.

Lemma test_targets_from_trace (env : Env) (args : Namespace) :
  forall (todo : list string) (acc : list TargetResult) (w : World),
    trace (snd (test_targets_from env args todo acc w))
    = trace w ++ flat_map (fun t => target_events env t args)
                          (processed env args todo).
Proof.
  induction todo as [|t rest IH]; intros acc w; simpl.
  - rewrite app_nil_r. reflexivity.
  - unfold bind. rewrite test_target_run.
    destruct (target_result env t args) as [r|e]; simpl.
    + rewrite IH. simpl. rewrite <- app_assoc. reflexivity.
    + rewrite app_nil_r. reflexivity.
Qed.

Lemma each_result_ok_processed (env : Env) (args : Namespace) :
  forall (todo : list string) (rs : list TargetResult),
    each_result env args todo = Ok rs ->
    processed env args todo = todo /\ map target rs = todo.
Proof.
  induction todo as [|t rest IH]; intros rs; simpl.
  - intros [= <-]. split; reflexivity.
  - destruct (target_result env t args) as [r|e] eqn:Er; [|discriminate].
    destruct (each_result env args rest) as [rs'|e]; [|discriminate].
    intros [= <-]. destruct (IH rs' eq_refl) as [Hp Hm].
    simpl. rewrite Hp, Hm. split; [reflexivity|].
    f_equal. unfold target_result in Er.
    destruct (resolve_target (resolve env) (fs env) t) as [[n|p]|e];
      try discriminate.
    + destruct (import_module env n) as [m|e]; try discriminate.
      destruct (testmod env m (option_flags_of args)); try discriminate.
      now inversion Er.
    + destruct (testfile env (Path.to_string p) (option_flags_of args));
        try discriminate.
      now inversion Er.
Qed.

Lemma target_result_unfiltered (env : Env) (args : Namespace) (t : string) :
  target_result env t (unfiltered args) = target_result env t args.
Proof. reflexivity. Qed.

Lemma each_result_unfiltered (env : Env) (args : Namespace) (todo : list string) :
  each_result env (unfiltered args) todo = each_result env args todo.
Proof.
  induction todo as [|t rest IH]; simpl; [reflexivity|].
  rewrite target_result_unfiltered, IH. reflexivity.
Qed.

Lemma keeps_in_mode (args : Namespace) (r : TargetResult) :
  keeps args r = in_mode (mode_of (empty args)) r.
Proof. unfold keeps, in_mode, mode_of. destruct (empty args) as [[|]|]; reflexivity. Qed.

Lemma filter_keeps_none (args : Namespace) (rs : list TargetResult) :
  empty args = None -> filter (keeps args) rs = rs.
Proof.
  intros He. induction rs as [|r rs IH]; simpl; [reflexivity|].
  unfold keeps at 1. rewrite He, IH. reflexivity.
Qed.

(** ** The empty-filter *)

(** C6: the results [test_targets] returns are those of the same run
    without a filter, filtered by the mode: only the results with
    [attempted == 0] under [OnlyEmpty], only those with [attempted != 0]
    under [OnlyNonEmpty], all of them under [All]; a result is kept exactly
    when it is in the list and fits the mode, and the filter goes through
    concatenation, so the order of the results is kept. *)
Theorem empty_filter_keeps_by_mode :
  forall (env : Env) (args : Namespace) (w : World),
    fst (test_targets env args w)
    = map_ok (filter_by_mode (mode_of (empty args)))
             (fst (test_targets env (unfiltered args) w))
    /\ (forall rs, filter_by_mode All rs = rs)
    /\ (forall mode rs r,
           In r (filter_by_mode mode rs) <->
           In r rs /\
           match mode with
           | All => True
           | OnlyEmpty => attempted (tests r) = 0
           | OnlyNonEmpty => attempted (tests r) <> 0
           end)
    /\ (forall mode l1 l2,
           filter_by_mode mode (l1 ++ l2)
           = filter_by_mode mode l1 ++ filter_by_mode mode l2).
Proof.
  intros env args w. repeat split.
  - unfold test_targets. rewrite !test_targets_from_value. simpl.
    rewrite each_result_unfiltered.
    destruct (each_result env args (targets args)) as [rs|e]; [|reflexivity].
    simpl. f_equal. rewrite (filter_keeps_none (unfiltered args) rs eq_refl).
    unfold filter_by_mode. apply filter_ext. apply keeps_in_mode.
  - intros rs. unfold filter_by_mode.
    induction rs as [|r rs IH]; simpl; [reflexivity | now rewrite IH].
  - unfold filter_by_mode in H. apply filter_In in H. tauto.
  - unfold filter_by_mode in H. apply filter_In in H. destruct H as [_ H].
    destruct mode; simpl in H; [exact I | lia | ].
    destruct (attempted (tests r) =? 0) eqn:E; [discriminate | lia].
  - intros [Hin Hm]. unfold filter_by_mode. apply filter_In. split; [exact Hin|].
    destruct mode; simpl; [reflexivity | lia | ].
    destruct (attempted (tests r) =? 0) eqn:E; [lia | reflexivity].
  - intros mode l1 l2. unfold filter_by_mode. apply filter_app.
Qed.

Lemma empty_filter_keeps_by_mode_witness :
  fst (test_targets demo_env
         (demo_args false (Some true) ["pkg/sub/mod.py"; "no.examples"])
         init_world)
  = Ok [ OfModule (mkModuleResult "no.examples" "no.examples"
                     (LoadedModule "no.examples") 0 (mkTestResults 0 0)) ].
Proof.
  rewrite (proj1 (empty_filter_keeps_by_mode demo_env
                    (demo_args false (Some true)
                               ["pkg/sub/mod.py"; "no.examples"])
                    init_world)).
  vm_compute. reflexivity.
Defined.

(** ** Totals *)

Lemma fold_add_result (rs : list TargetResult) :
  forall acc : Totals,
    fold_left add_result rs acc
    = mkTotals (total_delta_t acc + sum_of delta_t rs)
               (total_attempted acc + sum_of (fun r => attempted (tests r)) rs)
               (total_passed acc + sum_of tests_passed rs)
               (total_failed acc + sum_of (fun r => failed (tests r)) rs).
Proof.
  induction rs as [|r rs IH]; intros [dt a p f]; simpl.
  - rewrite !Z.add_0_r. reflexivity.
  - rewrite IH. simpl. f_equal; lia.
Qed.

Lemma sum_totals_fields (rs : list TargetResult) :
  sum_totals rs
  = mkTotals (sum_of delta_t rs)
             (sum_of (fun r => attempted (tests r)) rs)
             (sum_of tests_passed rs)
             (sum_of (fun r => failed (tests r)) rs).
Proof. unfold sum_totals. rewrite fold_add_result. reflexivity. Qed.




(** ** Counts *)

Lemma target_result_tests (env : Env) (t : string) (args : Namespace)
      (r : TargetResult) :
  target_result env t args = Ok r ->
  (exists m run, testmod env m (option_flags_of args) = Ok run
                 /\ tests r = run_tests run /\ delta_t r = run_ns run)
  \/ (exists f run, testfile env f (option_flags_of args) = Ok run
                    /\ tests r = run_tests run /\ delta_t r = run_ns run).
Proof.
  unfold target_result.
  destruct (resolve_target (resolve env) (fs env) t) as [[n|p]|e];
    try discriminate.
  - destruct (import_module env n) as [m|e]; try discriminate.
    destruct (testmod env m (option_flags_of args)) as [run|e] eqn:E;
      try discriminate.
    intros [= <-]. left. exists m, run. auto.
  - destruct (testfile env (Path.to_string p) (option_flags_of args))
      as [run|e] eqn:E; try discriminate.
    intros [= <-]. right. exists (Path.to_string p), run. auto.
Qed.

Lemma each_result_members (env : Env) (args : Namespace) :
  forall (todo : list string) (rs : list TargetResult),
    each_result env args todo = Ok rs ->
    Forall (fun r => exists t, In t todo /\ target_result env t args = Ok r) rs.
Proof.
  induction todo as [|t rest IH]; intros rs; simpl.
  - intros [= <-]. constructor.
  - destruct (target_result env t args) as [r|e] eqn:Er; [|discriminate].
    destruct (each_result env args rest) as [rs'|e]; [|discriminate].
    intros [= <-]. constructor.
    + exists t. auto.
    + specialize (IH rs' eq_refl). revert IH. apply Forall_impl.
      intros r' (t' & Hin & Ht'). exists t'. auto.
Qed.



Lemma count_examples_in_range (stop : bool) (outcomes : list bool) :
  forall acc, counts_in_range acc ->
              counts_in_range (count_examples stop outcomes acc).
Proof.
  unfold counts_in_range.
  induction outcomes as [|ok rest IH]; intros acc Hacc; simpl; [exact Hacc|].
  destruct (negb ok && stop).
  - simpl. destruct ok; lia.
  - apply IH. simpl. destruct ok; lia.
Qed.

Lemma scripted_run_in_range (documents : list (string * list bool))
      (doc : string) (flags : Z) (run : EngineRun) :
  scripted_run documents doc flags = Ok run -> counts_in_range (run_tests run).
Proof.
  unfold scripted_run.
  destruct (find (fun d => String.eqb (fst d) doc) documents) as [d|];
    intros [= <-]; simpl.
  - apply count_examples_in_range. unfold counts_in_range. simpl. lia.
  - unfold counts_in_range. simpl. lia.
Qed.

Lemma demo_engine_in_range : engine_counts_in_range demo_env.
Proof.
  split.
  - intros [n] flags run. apply scripted_run_in_range.
  - intros f flags run. apply scripted_run_in_range.
Qed.


(** ** Option flags *)

Lemma target_events_flags (env : Env) (t : string) (args : Namespace) :
  Forall (fun f => f = option_flags_of args)
         (engine_flags (target_events env t args)).
Proof.
  unfold target_events, engine_flags. simpl.
  destruct (resolve_target (resolve env) (fs env) t) as [[n|p]|e]; simpl.
  - destruct (import_module env n) as [m|e]; simpl; repeat constructor.
  - repeat constructor.
  - constructor.
Qed.

Lemma engine_flags_app (tr1 tr2 : list Event) :
  engine_flags (tr1 ++ tr2) = engine_flags tr1 ++ engine_flags tr2.
Proof. unfold engine_flags. apply flat_map_app. Qed.

Lemma processed_events_flags (env : Env) (args : Namespace) (ts : list string) :
  Forall (fun f => f = option_flags_of args)
         (engine_flags (flat_map (fun t => target_events env t args) ts)).
Proof.
  induction ts as [|t ts IH]; simpl; [constructor|].
  rewrite engine_flags_app. apply Forall_app. split; [|exact IH].
  apply target_events_flags.
Qed.

Lemma main_trace {FL : PyFloat} (env : Env) (args : Namespace) (w : World) :
  trace (snd (main env args w))
  = trace w
    ++ (if panel args then [EvHeaderPanel (targets args)] else [])
    ++ flat_map (fun t => target_events env t args)
                (processed env args (targets args)).
Proof.
  unfold main.
  set (w0 := if panel args
             then snd (emit (EvHeaderPanel (targets args)) w) else w).
  assert (Hw0 : trace w0 = trace w ++
                  (if panel args then [EvHeaderPanel (targets args)] else [])).
  { subst w0. destruct (panel args); simpl; [reflexivity|].
    now rewrite app_nil_r. }
  pose proof (test_targets_from_trace env args (targets args) [] w0) as Ht.
  fold (test_targets env args w0) in Ht.
  destruct (test_targets env args w0) as [[results|e] w1]; simpl in *.
  - destruct (fail_fast args && has_errors results);
      [|destruct (build_table results)]; simpl;
      rewrite Ht, Hw0, <- app_assoc; reflexivity.
  - rewrite Ht, Hw0, <- app_assoc. reflexivity.
Qed.

(** C9: whatever the options and the targets, every call of the engine
    made during an invocation receives the flags [option_flags_of args];
    these always contain [NORMALIZE_WHITESPACE] and [ELLIPSIS], they contain
    [FAIL_FAST] exactly when [--fail-fast] was given, and they depend on
    nothing else: they are [4 | 8] or [4 | 8 | 1024]. *)
Theorem engine_flags_always_normalize_and_ellipsis :
  forall (FL : PyFloat) (env : Env) (args : Namespace) (w : World),
    (exists new,
        trace (snd (main env args w)) = trace w ++ new
        /\ Forall (fun f => f = option_flags_of args) (engine_flags new))
    /\ has_flag (option_flags_of args) NORMALIZE_WHITESPACE = true
    /\ has_flag (option_flags_of args) ELLIPSIS = true
    /\ has_flag (option_flags_of args) FAIL_FAST = fail_fast args
    /\ option_flags_of args = (if fail_fast args then 1036 else 12).
Proof.
  intros FL env args w. split.
  - eexists. split; [apply main_trace|].
    rewrite engine_flags_app. apply Forall_app. split.
    + destruct (panel args); constructor.
    + apply processed_events_flags.
  - unfold option_flags_of. destruct (fail_fast args); repeat split.
Qed.

(** ** The percentage *)

(** C10: [percent] always returns a text.  On a zero denominator, where
    the division itself would raise, it returns the placeholder ["-"]
    without dividing; the division is made only on a non-zero denominator,
    where it succeeds and the rounded percentage is returned. *)
Theorem percent_is_total :
  forall (FL : PyFloat) (numerator denominator : Z),
    is_ok (percent numerator denominator) = true
    /\ percent numerator 0 = Ok (mkText "-" "bright black")
    /\ truediv numerator 0 = Raise ZeroDivisionError
    /\ (denominator <> 0 ->
        truediv numerator denominator
        = Ok (int_truediv numerator denominator)
        /\ let number :=
             float_round (float_mul_int (int_truediv numerator denominator) 100)
           in
           percent numerator denominator
           = Ok (mkText (str_of_int number ++ "%")%string
                        (if number =? 100 then "bold green" else "bold red"))).
Proof.
  intros FL n d. unfold percent, truediv. repeat split.
  - destruct (d =? 0); [reflexivity|].
    destruct (float_round (float_mul_int (int_truediv n d) 100) =? 100);
      reflexivity.
  - apply Z.eqb_neq in H. rewrite H. reflexivity.
  - apply Z.eqb_neq in H. rewrite H. simpl.
    destruct (float_round (float_mul_int (int_truediv n d) 100) =? 100);
      reflexivity.
Qed.

Lemma percent_is_total_witness :
  3 <> 0
  /\ @percent ExactFloat 2 3 = Ok (mkText "67%" "bold red")
  /\ @percent ExactFloat 3 3 = Ok (mkText "100%" "bold green").
Proof.
  split; [lia|]. split.
  - apply (proj2 (proj2 (proj2 (proj2 (percent_is_total ExactFloat 2 3)))
                        ltac:(lia))).
  - apply (proj2 (proj2 (proj2 (proj2 (percent_is_total ExactFloat 3 3)))
                        ltac:(lia))).
Defined.

(** ** The table and the end of [main] *)

Lemma percent_ok {FL : PyFloat} (n d : Z) : exists t, percent n d = Ok t.
Proof.
  unfold percent, truediv. destruct (d =? 0); [eauto|].
  destruct (float_round (float_mul_int (int_truediv n d) 100) =? 100); eauto.
Qed.

Lemma rows_of_ok {FL : PyFloat} (rs : list TargetResult) :
  exists rows, rows_of rs = Ok rows /\ map row_test rows = map name rs.
Proof.
  induction rs as [|r rs (rows & Hrows & Hnames)]; simpl; [eauto|].
  unfold row_of.
  destruct (percent_ok (tests_passed r) (attempted (tests r))) as [t ->].
  rewrite Hrows. eexists. split; [reflexivity|]. simpl. now rewrite Hnames.
Qed.

Lemma build_table_ok {FL : PyFloat} (rs : list TargetResult) :
  exists table,
    build_table rs = Ok table
    /\ map row_test (body table) = map name (sorted_by_name rs)
    /\ row_passed (summary table) = total_passed (sum_totals rs)
    /\ row_failed (summary table) = total_failed (sum_totals rs).
Proof.
  unfold build_table.
  destruct (rows_of_ok (sorted_by_name rs)) as (rows & -> & Hnames).
  destruct (percent_ok (total_passed (sum_totals rs))
                       (total_attempted (sum_totals rs))) as [t ->].
  eexists. split; [reflexivity|]. simpl. auto.
Qed.

Lemma insert_by_name_perm (r : TargetResult) (l : list TargetResult) :
  Permutation (insert_by_name r l) (r :: l).
Proof.
  induction l as [|r' l IH]; simpl; [reflexivity|].
  destruct (String.leb (name r) (name r')); [reflexivity|].
  rewrite IH. apply perm_swap.
Qed.

Lemma sorted_by_name_perm (rs : list TargetResult) :
  Permutation (sorted_by_name rs) rs.
Proof.
  induction rs as [|r rs IH]; simpl; [reflexivity|].
  rewrite insert_by_name_perm. now constructor.
Qed.


(** The value of [test_targets] does not depend on the starting state. *)
Lemma test_targets_value (env : Env) (args : Namespace) (w : World) :
  fst (test_targets env args w)
  = map_ok (filter (keeps args)) (each_result env args (targets args)).
Proof.
  unfold test_targets. rewrite test_targets_from_value.
  destruct (each_result env args (targets args)); reflexivity.
Qed.

Lemma main_outcome {FL : PyFloat} (env : Env) (args : Namespace) (w : World) :
  fst (main env args w)
  = match fst (test_targets env args w) with
    | Raise e => Uncaught e
    | Ok results =>
        if fail_fast args && has_errors results then SysExit 1
        else match build_table results with
             | Raise e => Uncaught e
             | Ok table => Printed table
             end
    end.
Proof.
  unfold main.
  set (w0 := if panel args
             then snd (emit (EvHeaderPanel (targets args)) w) else w).
  rewrite (test_targets_value env args w).
  pose proof (test_targets_value env args w0) as Hv.
  destruct (test_targets env args w0) as [[results|e] w1]; simpl in Hv;
    rewrite <- Hv; simpl.
  - destruct (fail_fast args && has_errors results); [reflexivity|].
    destruct (build_table results); reflexivity.
  - reflexivity.
Qed.

Lemma each_result_raises (env : Env) (args : Namespace) (t : string)
      (e : PyError) :
  forall todo,
    In t todo -> target_result env t args = Raise e ->
    exists e', each_result env args todo = Raise e'.
Proof.
  induction todo as [|t0 rest IH]; intros Hin Hr; [destruct Hin|].
  simpl. destruct Hin as [-> | Hin].
  - rewrite Hr. eauto.
  - destruct (target_result env t0 args); [|eauto].
    destruct (IH Hin Hr) as [e' ->]. eauto.
Qed.

Lemma main_uncaught {FL : PyFloat} (env : Env) (args : Namespace) (w : World)
      (t : string) (e : PyError) :
  In t (targets args) -> target_result env t args = Raise e ->
  exists e', fst (main env args w) = Uncaught e'.
Proof.
  intros Hin Hr. rewrite main_outcome, test_targets_value.
  destruct (each_result_raises env args t e (targets args) Hin Hr) as [e' ->].
  simpl. eauto.
Qed.

Lemma resolved_targets_app (tr1 tr2 : list Event) :
  resolved_targets (tr1 ++ tr2) = resolved_targets tr1 ++ resolved_targets tr2.
Proof. unfold resolved_targets. apply flat_map_app. Qed.

Lemma target_events_resolved (env : Env) (t : string) (args : Namespace) :
  resolved_targets (target_events env t args) = [t].
Proof.
  unfold target_events, resolved_targets. simpl.
  destruct (resolve_target (resolve env) (fs env) t) as [[n|p]|e]; simpl;
    [|reflexivity|reflexivity].
  destruct (import_module env n); reflexivity.
Qed.

Lemma processed_resolved (env : Env) (args : Namespace) (ts : list string) :
  resolved_targets (flat_map (fun t => target_events env t args) ts) = ts.
Proof.
  induction ts as [|t ts IH]; [reflexivity|]. cbn [flat_map].
  rewrite resolved_targets_app, target_events_resolved, IH. reflexivity.
Qed.



Lemma test_targets_ok_inv (env : Env) (args : Namespace) (w w1 : World)
      (results : list TargetResult) :
  test_targets env args w = (Ok results, w1) ->
  exists rs, each_result env args (targets args) = Ok rs
             /\ results = filter (keeps args) rs
             /\ trace w1 = trace w ++ flat_map (fun t => target_events env t args)
                                               (targets args).
Proof.
  intros Hrun.
  pose proof (test_targets_value env args w) as Hv.
  pose proof (test_targets_from_trace env args (targets args) [] w) as Ht.
  fold (test_targets env args w) in Ht. rewrite Hrun in Hv, Ht. simpl in Hv, Ht.
  destruct (each_result env args (targets args)) as [rs|e] eqn:E;
    [|discriminate].
  injection Hv as Hv. exists rs. split; [reflexivity|]. split; [exact Hv|].
  rewrite Ht. destruct (each_result_ok_processed env args _ _ E) as [-> _].
  reflexivity.
Qed.

(** ** Targets and the report *)

(** C1, as the code has it: when no target raises and no empty-filter is
    given, the run yields exactly one result per supplied target, in the
    order supplied, and without fail-fast the printed table has one row for
    each of them; but nothing recovers a target-level error: when a
    supplied target fails to resolve, or resolves to a module that fails to
    import, an exception leaves [main] and no table is printed. *)
Theorem targets_reported_unless_raise :
  forall (FL : PyFloat) (env : Env) (args : Namespace) (w : World),
    (forall results w1,
        test_targets env args w = (Ok results, w1) ->
        empty args = None ->
        map target results = targets args
        /\ (fail_fast args = false ->
            exists table,
              fst (main env args w) = Printed table
              /\ map row_test (body table) = map name (sorted_by_name results)
              /\ Permutation (sorted_by_name results) results))
    /\ (forall t e,
           In t (targets args) ->
           resolve_target (resolve env) (fs env) t = Raise e ->
           exists e', fst (main env args w) = Uncaught e')
    /\ (forall t module_name e,
           In t (targets args) ->
           resolve_target (resolve env) (fs env) t
           = Ok (ModuleTarget module_name) ->
           import_module env module_name = Raise e ->
           exists e', fst (main env args w) = Uncaught e').
Proof.
  intros FL env args w. split; [|split].
  - intros results w1 Hrun Hempty.
    destruct (test_targets_ok_inv env args w w1 results Hrun)
      as (rs & Hrs & Hres & _).
    rewrite (filter_keeps_none args rs Hempty) in Hres. subst results.
    split; [apply (each_result_ok_processed env args _ _ Hrs)|].
    intros Hff. rewrite main_outcome, Hrun, Hff. simpl.
    destruct (build_table_ok rs) as (table & -> & Hnames & _).
    exists table. split; [reflexivity|]. split; [exact Hnames|].
    apply sorted_by_name_perm.
  - intros t e Hin Hres. apply (main_uncaught env args w t e Hin).
    unfold target_result. rewrite Hres. reflexivity.
  - intros t n e Hin Hres Himp. apply (main_uncaught env args w t e Hin).
    unfold target_result. rewrite Hres, Himp. reflexivity.
Qed.

Lemma targets_reported_unless_raise_witness :
  (let args := demo_args false None ["pkg/sub/mod.py"; "README.md"] in
   map target (match fst (test_targets demo_env args init_world) with
               | Ok results => results
               | Raise _ => []
               end) = ["pkg/sub/mod.py"; "README.md"])
  /\ (exists e', fst (@main ExactFloat demo_env
                        (demo_args false None ["all.green"; "pkg/sub"])
                        init_world) = Uncaught e')
  /\ (exists e', fst (@main ExactFloat demo_env
                        (demo_args false None ["not.importable"; "all.green"])
                        init_world) = Uncaught e').
Proof.
  split; [|split].
  - intros args.
    destruct (test_targets demo_env args init_world) as [res w1] eqn:Hrun.
    destruct res as [results|e]; [|vm_compute in Hrun; discriminate Hrun].
    simpl.
    apply (proj1 (proj1 (targets_reported_unless_raise
                           ExactFloat demo_env args init_world)
                        results w1 Hrun eq_refl)).
  - apply (proj1 (proj2 (targets_reported_unless_raise
                           ExactFloat demo_env
                           (demo_args false None ["all.green"; "pkg/sub"])
                           init_world))
                 "pkg/sub" (NotAFile "pkg/sub")).
    + simpl. auto.
    + reflexivity.
  - apply (proj2 (proj2 (targets_reported_unless_raise
                           ExactFloat demo_env
                           (demo_args false None ["not.importable"; "all.green"])
                           init_world))
                 "not.importable" "not.importable"
                 (ImportError "not.importable")).
    + simpl. auto.
    + reflexivity.
    + reflexivity.
Defined.

(** A supplied target that is a directory: the invocation ends with the
    exception, prints no table, and the target after it is never looked at,
    although fail-fast is off. *)
Lemma unresolved_target_aborts_run :
  let args := demo_args false None ["pkg/sub"; "all.green"] in
  let run := @main ExactFloat demo_env args init_world in
  fail_fast args = false
  /\ In "pkg/sub" (targets args)
  /\ fst (test_targets demo_env args init_world) = Raise (NotAFile "pkg/sub")
  /\ fst run = Uncaught (NotAFile "pkg/sub")
  /\ (forall table, fst run <> Printed table)
  /\ resolved_targets (trace (snd run)) = ["pkg/sub"].
Proof.
  vm_compute. repeat split; auto. intros table H. discriminate H.
Qed.

(** ** Fail-fast *)




(** ** Exit status *)





(** * Further properties of the classifier *)

Lemma firstn_snoc_le (A : Type) (l : list A) (x : A) (k : nat) :
  (k <= List.length l)%nat -> firstn k (l ++ [x]) = firstn k l.
Proof.
  intros Hk. rewrite firstn_app.
  replace (k - List.length l)%nat with 0%nat by lia.
  simpl. apply app_nil_r.
Qed.

Lemma find_package_root_ok_inv fs (f : Path.t) :
  forall dir root,
    find_package_root fs f dir = Ok root ->
    exists dirs,
      dir = root ++ dirs
      /\ is_package_root fs root = true
      /\ (forall k, (0 < k <= List.length dirs)%nat ->
                    is_package_root fs (root ++ firstn k dirs) = false).
Proof.
  induction dir as [|x ds IH] using rev_ind; intros root;
    rewrite find_package_root_step.
  - destruct (is_package_root fs []) eqn:E; [|discriminate].
    intros [= <-]. exists []. repeat split; auto. simpl. lia.
  - destruct (is_package_root fs (ds ++ [x])) eqn:E.
    + intros [= <-]. exists []. rewrite app_nil_r.
      repeat split; auto. simpl. lia.
    + rewrite parent_snoc, parent_of_snoc_differs. intros Hrec.
      destruct (IH root Hrec) as (dirs & -> & Hroot & Hnear).
      exists (dirs ++ [x]). rewrite app_assoc.
      split; [reflexivity|]. split; [exact Hroot|].
      intros k Hk. rewrite length_app in Hk. simpl in Hk.
      destruct (Nat.eq_dec k (S (List.length dirs))) as [-> | Hne].
      * replace (S (List.length dirs)) with (List.length (dirs ++ [x]))
          by (rewrite length_app; simpl; lia).
        rewrite firstn_all, app_assoc. exact E.
      * rewrite firstn_snoc_le by lia. apply Hnear. lia.
Qed.

Lemma find_package_root_raise_inv fs (f : Path.t) :
  forall dir e,
    find_package_root fs f dir = Raise e ->
    e = NoPackageRoot f
    /\ (forall k, (k <= List.length dir)%nat ->
                  is_package_root fs (firstn k dir) = false).
Proof.
  induction dir as [|x ds IH] using rev_ind; intros e;
    rewrite find_package_root_step.
  - destruct (is_package_root fs []) eqn:E; [discriminate|].
    simpl. intros [= <-]. split; [reflexivity|].
    intros k Hk. simpl in Hk. replace k with 0%nat by lia. exact E.
  - destruct (is_package_root fs (ds ++ [x])) eqn:E; [discriminate|].
    rewrite parent_snoc, parent_of_snoc_differs. intros Hrec.
    destruct (IH e Hrec) as [-> Hnone]. split; [reflexivity|].
    intros k Hk. rewrite length_app in Hk. simpl in Hk.
    destruct (Nat.eq_dec k (S (List.length ds))) as [-> | Hne].
    + replace (S (List.length ds)) with (List.length (ds ++ [x]))
        by (rewrite length_app; simpl; lia).
      rewrite firstn_all. exact E.
    + rewrite firstn_snoc_le by lia. apply Hnone. lia.
Qed.

(** X1: whatever the walk returns is right.  A directory it returns is an
    ancestor of (or is) the starting directory, is a package root, and no
    directory strictly between it and the start is one; and when it raises,
    the exception names the file and no ancestor up to the filesystem root
    is a package root. *)
Theorem find_package_root_sound :
  forall (fs : FileSystem) (file_path dir : Path.t),
    (forall root,
        find_package_root fs file_path dir = Ok root ->
        exists dirs,
          dir = root ++ dirs
          /\ is_package_root fs root = true
          /\ (forall k, (0 < k <= List.length dirs)%nat ->
                        is_package_root fs (root ++ firstn k dirs) = false))
    /\ (forall e,
           find_package_root fs file_path dir = Raise e ->
           e = NoPackageRoot file_path
           /\ (forall k, (k <= List.length dir)%nat ->
                         is_package_root fs (firstn k dir) = false)).
Proof.
  intros fs f dir. split.
  - apply find_package_root_ok_inv.
  - apply find_package_root_raise_inv.
Qed.

Lemma find_package_root_sound_witness :
  (exists dirs,
      ["proj"; "pkg"; "sub"] = ["proj"] ++ dirs
      /\ is_package_root demo_fs ["proj"] = true
      /\ (forall k, (0 < k <= List.length dirs)%nat ->
                    is_package_root demo_fs (["proj"] ++ firstn k dirs) = false))
  /\ is_package_root demo_fs (firstn 1 ["lonely"]) = false.
Proof.
  split.
  - apply (proj1 (find_package_root_sound
                    demo_fs ["proj"; "pkg"; "sub"; "mod.py"]
                    ["proj"; "pkg"; "sub"]) ["proj"]).
    reflexivity.
  - apply (proj2 (find_package_root_sound
                    demo_fs ["lonely"; "x.py"] ["lonely"])
                 (NoPackageRoot ["lonely"; "x.py"]) eq_refl).
    simpl. lia.
Defined.

Lemma relative_to_below (p root dirs : Path.t) :
  Path.parent p = root ++ dirs ->
  exists rel,
    Path.relative_to p root = Ok rel
    /\ Path.parent rel = dirs /\ Path.stem rel = Path.stem p.
Proof.
  intros Hparent. destruct p as [|x l] using rev_ind.
  - destruct root; [|discriminate]. destruct dirs; [|discriminate].
    exists []. repeat split.
  - clear IHl. rewrite parent_snoc in Hparent. subst l.
    exists (dirs ++ [x]). rewrite <- app_assoc, relative_to_prefix.
    split; [reflexivity|]. rewrite parent_snoc. split; [reflexivity|].
    unfold Path.stem. rewrite app_assoc, !name_snoc. reflexivity.
Qed.

(** X2: [to_module_name] fails in one way only.  When it raises, the
    exception is the no-package-root one for the file and no ancestor
    directory is a package root; [relative_to] never raises, since the
    directory found is always above the file.  When it returns, the name is
    the dot-join of the path below a package root above the file. *)
Theorem to_module_name_outcomes :
  forall (fs : FileSystem) (file_path : Path.t),
    (forall e,
        to_module_name fs file_path = Raise e ->
        e = NoPackageRoot file_path
        /\ (forall k, (k <= List.length (Path.parent file_path))%nat ->
                      is_package_root fs (firstn k (Path.parent file_path))
                      = false))
    /\ (forall module_name,
           to_module_name fs file_path = Ok module_name ->
           exists root dirs,
             Path.parent file_path = root ++ dirs
             /\ is_package_root fs root = true
             /\ module_name
                = dotted (Path.join1 dirs (Path.stem file_path))).
Proof.
  intros fs p. unfold to_module_name.
  destruct (find_package_root fs p (Path.parent p)) as [root|e0] eqn:Hwalk.
  - destruct (find_package_root_ok_inv fs p _ _ Hwalk)
      as (dirs & Hparent & Hroot & _).
    destruct (relative_to_below p root dirs Hparent)
      as (rel & -> & Hrp & Hrs).
    rewrite Hrp, Hrs. split; [discriminate|].
    intros n [= <-]. exists root, dirs. auto.
  - split; [|discriminate].
    intros e [= <-]. apply (find_package_root_raise_inv fs p _ _ Hwalk).
Qed.

Lemma to_module_name_outcomes_witness :
  (exists root dirs,
      Path.parent ["proj"; "pkg"; "sub"; "mod.py"] = root ++ dirs
      /\ is_package_root demo_fs root = true
      /\ "pkg.sub.mod"
         = dotted (Path.join1 dirs (Path.stem ["proj"; "pkg"; "sub"; "mod.py"])))
  /\ NoPackageRoot ["lonely"; "x.py"] = NoPackageRoot ["lonely"; "x.py"].
Proof.
  split.
  - apply (proj2 (to_module_name_outcomes
                    demo_fs ["proj"; "pkg"; "sub"; "mod.py"])).
    reflexivity.
  - symmetry.
    apply (proj1 (to_module_name_outcomes demo_fs ["lonely"; "x.py"])).
    reflexivity.
Defined.


(** X3: an existing regular file whose suffix is not [.py] is classified
    as a text file, under its resolved path; the comparison is exact, so a
    file without suffix, or one with the suffix in another case, is a text
    file too. *)
Theorem other_file_is_text_file :
  forall (resolve : string -> Path.t) (fs : FileSystem) (target : string),
    is_file fs (resolve target) = true ->
    Path.suffix (resolve target) <> ".py" ->
    resolve_target resolve fs target = Ok (TextFileTarget (resolve target)).
Proof.
  intros resolve fs target Hfile Hsuffix. unfold resolve_target.
  assert (Hex : exists_ fs (resolve target) = true).
  { unfold is_file in Hfile. unfold exists_.
    destruct (fs (resolve target)); [reflexivity|discriminate]. }
  rewrite Hex, Hfile. simpl.
  destruct (String.eqb (Path.suffix (resolve target)) ".py") eqn:E;
    [|reflexivity].
  apply String.eqb_eq in E. contradiction.
Qed.

Lemma other_file_is_text_file_witness :
  resolve_target (posix_resolve ["proj"]) demo_fs "./README.md"
  = Ok (TextFileTarget ["proj"; "README.md"]).
Proof.
  apply (other_file_is_text_file (posix_resolve ["proj"]) demo_fs "./README.md").
  - reflexivity.
  - vm_compute. discriminate.
Defined.



(** X5: which files make a directory a package root.  A regular file
    [pyproject.toml] always does; without it, a regular file [__init__.py]
    in the directory always prevents it, with or without [setup.py]; and
    without [pyproject.toml], [setup.py] is needed. *)
Theorem package_root_markers :
  forall (fs : FileSystem) (dir : Path.t),
    (is_file fs (dir ++ ["pyproject.toml"]) = true ->
     is_package_root fs dir = true)
    /\ (is_file fs (dir ++ ["pyproject.toml"]) = false ->
        is_file fs (dir ++ ["__init__.py"]) = true ->
        is_package_root fs dir = false)
    /\ (is_file fs (dir ++ ["pyproject.toml"]) = false ->
        is_file fs (dir ++ ["setup.py"]) = false ->
        is_package_root fs dir = false)
    /\ (is_file fs (dir ++ ["setup.py"]) = true ->
        is_file fs (dir ++ ["__init__.py"]) = false ->
        is_package_root fs dir = true).
Proof.
  intros fs dir.
  unfold is_package_root, is_poetry_root, is_setup_py_root,
    POETRY_FILENAME, SETUP_FILENAME.
  change (Path.join1 dir "pyproject.toml") with (dir ++ ["pyproject.toml"]).
  change (Path.join1 dir "setup.py") with (dir ++ ["setup.py"]).
  change (Path.join1 dir "__init__.py") with (dir ++ ["__init__.py"]).
  repeat split.
  - intros ->. reflexivity.
  - intros -> ->. simpl. apply andb_false_r.
  - intros -> ->. reflexivity.
  - intros -> ->. simpl. apply orb_true_r.
Qed.

Lemma package_root_markers_witness :
  is_package_root demo_fs ["proj"] = true
  /\ is_package_root demo_fs ["proj"; "pkg"] = false.
Proof.
  split.
  - apply (proj1 (package_root_markers demo_fs ["proj"])). reflexivity.
  - apply (proj1 (proj2 (proj2 (package_root_markers demo_fs ["proj"; "pkg"]))));
      reflexivity.
Defined.

(** * Further properties of the target loop *)

(** X6: what [test_target] does for each kind of target.  A text file is
    never imported: the engine is called on the file and nothing else
    happens; a module is imported first, and its examples are run only if
    the import succeeded; a target that fails to resolve reaches neither the
    import nor the engine.  The result keeps the target string as given and
    is named by the file path, or by the module name. *)
Theorem test_target_by_kind :
  forall (env : Env) (t : string) (args : Namespace) (w : World),
    (forall p,
        resolve_target (resolve env) (fs env) t = Ok (TextFileTarget p) ->
        trace (snd (test_target env t args w))
        = trace w ++ [EvResolve t;
                      EvTestfile (Path.to_string p) (option_flags_of args)]
        /\ (forall r,
               fst (test_target env t args w) = Ok r ->
               exists tf, r = OfTextFile tf
                          /\ tf_target tf = t /\ tf_file_path tf = p
                          /\ name r = Path.to_string p))
    /\ (forall n,
           resolve_target (resolve env) (fs env) t = Ok (ModuleTarget n) ->
           (exists tail,
               trace (snd (test_target env t args w))
               = trace w ++ EvResolve t :: EvImport n :: tail
               /\ ((tail = [] /\ exists e, import_module env n = Raise e)
                   \/ (exists m, import_module env n = Ok m
                                 /\ tail = [EvTestmod m (option_flags_of args)])))
           /\ (forall r,
                  fst (test_target env t args w) = Ok r ->
                  exists mr, r = OfModule mr
                             /\ mr_target mr = t /\ mr_module_name mr = n
                             /\ import_module env n = Ok (mr_module mr)
                             /\ name r = n))
    /\ (forall e,
           resolve_target (resolve env) (fs env) t = Raise e ->
           test_target env t args w
           = (Raise e, mkWorld (clock w) (trace w ++ [EvResolve t]))).
Proof.
  intros env t args w. rewrite test_target_run.
  unfold target_ns, target_result, target_events. simpl.
  split; [|split].
  - intros p ->. split; [reflexivity|].
    destruct (testfile env (Path.to_string p) (option_flags_of args));
      [|discriminate].
    intros r [= <-]. eexists. repeat split.
  - intros n ->. split.
    + destruct (import_module env n) as [m|e] eqn:Himp.
      * eexists. split; [reflexivity|]. right. eauto.
      * eexists. split; [reflexivity|]. left. eauto.
    + destruct (import_module env n) as [m|e]; [|discriminate].
      destruct (testmod env m (option_flags_of args)); [|discriminate].
      intros r [= <-]. eexists. repeat split.
  - intros e ->. rewrite Z.add_0_r. reflexivity.
Qed.

Lemma test_target_by_kind_witness :
  trace (snd (test_target demo_env "README.md" (demo_args false None [])
                          init_world))
  = [EvResolve "README.md"; EvTestfile "/proj/README.md" 12].
Proof.
  apply (proj1 (proj1 (test_target_by_kind demo_env "README.md"
                         (demo_args false None []) init_world)
                      ["proj"; "README.md"] eq_refl)).
Defined.

Lemma each_result_raise_inv (env : Env) (args : Namespace) (e : PyError) :
  forall todo,
    each_result env args todo = Raise e ->
    exists before t after,
      todo = before ++ t :: after
      /\ Forall (fun t' => is_ok (target_result env t' args) = true) before
      /\ target_result env t args = Raise e
      /\ processed env args todo = before ++ [t].
Proof.
  induction todo as [|t0 rest IH]; simpl; [discriminate|].
  destruct (target_result env t0 args) as [r0|e0] eqn:E0.
  - destruct (each_result env args rest) as [rs|e1]; [discriminate|].
    intros [= <-]. destruct (IH eq_refl) as (b & t & a & -> & Hb & Ht & Hp).
    exists (t0 :: b), t, a. split; [reflexivity|]. split.
    + constructor; [now rewrite E0 | exact Hb].
    + split; [exact Ht|]. simpl. now rewrite Hp.
  - intros [= <-]. exists [], t0, rest. repeat split; auto.
Qed.

(** X7: the run stops at the first target that raises.  When
    [test_targets] raises, the supplied targets split into those before a
    target, which all gave a result, that target, whose exception is the
    one raised, and the targets after it, which are never classified. *)
Theorem test_targets_stops_at_first_raise :
  forall (env : Env) (args : Namespace) (w : World) (e : PyError) (w1 : World),
    test_targets env args w = (Raise e, w1) ->
    exists before t after,
      targets args = before ++ t :: after
      /\ Forall (fun t' => forall w0,
                     is_ok (fst (test_target env t' args w0)) = true) before
      /\ (forall w0, fst (test_target env t args w0) = Raise e)
      /\ resolved_targets (trace w1)
         = resolved_targets (trace w) ++ before ++ [t].
Proof.
  intros env args w e w1 Hrun.
  pose proof (test_targets_value env args w) as Hv.
  pose proof (test_targets_from_trace env args (targets args) [] w) as Ht.
  fold (test_targets env args w) in Ht. rewrite Hrun in Hv, Ht.
  simpl in Hv, Ht.
  destruct (each_result env args (targets args)) as [rs|e'] eqn:E;
    [discriminate|].
  injection Hv as <-.
  destruct (each_result_raise_inv env args e _ E)
    as (b & t & a & Hsplit & Hb & Hraise & Hp).
  exists b, t, a. split; [exact Hsplit|]. split; [|split].
  - revert Hb. apply Forall_impl. intros t' Hok w0.
    rewrite test_target_run. exact Hok.
  - intros w0. rewrite test_target_run. exact Hraise.
  - rewrite Ht, resolved_targets_app, Hp, processed_resolved. reflexivity.
Qed.

Lemma test_targets_stops_at_first_raise_witness :
  exists before t after,
    ["all.green"; "pkg/sub"; "README.md"] = before ++ t :: after
    /\ Forall (fun t' => forall w0,
                   is_ok (fst (test_target demo_env t'
                                 (demo_args false None
                                    ["all.green"; "pkg/sub"; "README.md"]) w0))
                   = true) before
    /\ (forall w0, fst (test_target demo_env t
                          (demo_args false None
                             ["all.green"; "pkg/sub"; "README.md"]) w0)
                   = Raise (NotAFile "pkg/sub"))
    /\ resolved_targets
         (trace (snd (test_targets demo_env
                        (demo_args false None
                           ["all.green"; "pkg/sub"; "README.md"]) init_world)))
       = resolved_targets (trace init_world) ++ before ++ [t].
Proof.
  apply (test_targets_stops_at_first_raise demo_env
           (demo_args false None ["all.green"; "pkg/sub"; "README.md"])
           init_world (NotAFile "pkg/sub")).
  reflexivity.
Defined.

Lemma filter_split_perm (A : Type) (f : A -> bool) (l : list A) :
  Permutation (filter f l ++ filter (fun x => negb (f x)) l) l.
Proof.
  induction l as [|x l IH]; simpl; [constructor|].
  destruct (f x); simpl.
  - now constructor.
  - apply Permutation_sym, Permutation_cons_app, Permutation_sym, IH.
Qed.

(** X8: the two filters split a run in two.  For the same targets and
    environment, the results shown with [--empty] followed by those shown
    with [--no-empty] are, up to order, exactly the results shown without
    filter; no result is shown by both. *)
Theorem empty_modes_partition :
  forall (env : Env) (args : Namespace) (w : World)
         (shown empties others : list TargetResult),
    fst (test_targets env (with_empty args None) w) = Ok shown ->
    fst (test_targets env (with_empty args (Some true)) w) = Ok empties ->
    fst (test_targets env (with_empty args (Some false)) w) = Ok others ->
    Permutation (empties ++ others) shown
    /\ (List.length empties + List.length others = List.length shown)%nat
    /\ (forall r, In r empties -> ~ In r others).
Proof.
  intros env args w shown empties others.
  rewrite !test_targets_value. simpl.
  assert (Hsame : forall e, each_result env (with_empty args e) (targets args)
                            = each_result env args (targets args)).
  { intros e. induction (targets args) as [|t l IH]; simpl; [reflexivity|].
    rewrite IH. reflexivity. }
  rewrite !Hsame.
  destruct (each_result env args (targets args)) as [rs|e]; [|discriminate].
  simpl. intros [= <-] [= <-] [= <-].
  rewrite (filter_keeps_none (with_empty args None) rs eq_refl).
  assert (Hperm : Permutation
                    (filter (keeps (with_empty args (Some true))) rs
                     ++ filter (keeps (with_empty args (Some false))) rs) rs).
  { apply (filter_split_perm _ (fun r => attempted (tests r) =? 0) rs). }
  split; [exact Hperm|]. split.
  - rewrite <- length_app. apply Permutation_length. exact Hperm.
  - intros r Hin Hin'. apply filter_In in Hin, Hin'.
    destruct Hin as [_ H1]. destruct Hin' as [_ H2].
    unfold keeps in H1, H2. simpl in H1, H2. rewrite H1 in H2. discriminate.
Qed.

Lemma empty_modes_partition_witness :
  let args := demo_args false None ["pkg/sub/mod.py"; "no.examples"] in
  let a := OfModule (mkModuleResult "pkg/sub/mod.py" "pkg.sub.mod"
                       (LoadedModule "pkg.sub.mod") 3000 (mkTestResults 1 3)) in
  let b := OfModule (mkModuleResult "no.examples" "no.examples"
                       (LoadedModule "no.examples") 0 (mkTestResults 0 0)) in
  fst (test_targets demo_env (with_empty args (Some true)) init_world) = Ok [b]
  /\ fst (test_targets demo_env (with_empty args (Some false)) init_world)
     = Ok [a]
  /\ Permutation ([b] ++ [a]) [a; b].
Proof.
  intros args a b. split; [reflexivity|]. split; [reflexivity|].
  apply (empty_modes_partition demo_env args init_world [a; b] [b] [a]);
    reflexivity.
Defined.

(** * Further properties of the report *)

Lemma rows_of_columns {FL : PyFloat} (rs : list TargetResult) :
  exists rows,
    rows_of rs = Ok rows
    /\ map row_test rows = map name rs
    /\ map row_delta_t rows = map delta_t rs
    /\ map row_passed rows = map tests_passed rs
    /\ map row_failed rows = map (fun r => failed (tests r)) rs
    /\ Forall2 (fun r row => percent (tests_passed r) (attempted (tests r))
                             = Ok (row_percent row)) rs rows.
Proof.
  induction rs as [|r rs (rows & Hrows & H1 & H2 & H3 & H4 & H5)]; simpl.
  - exists []. repeat split; constructor.
  - unfold row_of.
    destruct (percent_ok (tests_passed r) (attempted (tests r))) as [t Ht].
    rewrite Ht, Hrows. eexists. split; [reflexivity|]. simpl.
    rewrite H1, H2, H3, H4. repeat split. constructor; [exact Ht | exact H5].
Qed.


Lemma insert_by_name_sorted (r : TargetResult) (l : list TargetResult) :
  Sorted name_le l -> Sorted name_le (insert_by_name r l).
Proof.
  induction l as [|r' l IH]; intros Hs; simpl.
  - repeat constructor.
  - destruct (String.leb (name r) (name r')) eqn:E.
    + constructor; [exact Hs|]. constructor. exact E.
    + inversion Hs as [|? ? Hs' Hhd]; subst.
      constructor; [apply IH; exact Hs'|].
      assert (Hle : name_le r' r).
      { unfold name_le. destruct (String.leb_total (name r) (name r'));
          congruence. }
      destruct l as [|r'' l]; simpl.
      * constructor. exact Hle.
      * destruct (String.leb (name r) (name r'')); constructor;
          [exact Hle | now inversion Hhd].
Qed.

Lemma sorted_by_name_sorted (rs : list TargetResult) :
  Sorted name_le (sorted_by_name rs).
Proof.
  induction rs as [|r rs IH]; simpl; [constructor|].
  apply insert_by_name_sorted. exact IH.
Qed.

Lemma sorted_names (l : list TargetResult) :
  Sorted name_le l ->
  Sorted (fun a b => String.leb a b = true) (map name l).
Proof.
  induction 1 as [|r l Hs IH Hhd]; simpl; constructor; [exact IH|].
  destruct Hhd; simpl; constructor. assumption.
Qed.

(** X9: the rows of the table come in the order of their names, whatever
    the order of the targets, and there is exactly one row per result
    handed to the table. *)
Theorem table_rows_sorted_by_name :
  forall (FL : PyFloat) (results : list TargetResult) (table : Table),
    build_table results = Ok table ->
    Sorted (fun a b => String.leb a b = true) (map row_test (body table))
    /\ Permutation (map row_test (body table)) (map name results)
    /\ List.length (body table) = List.length results.
Proof.
  intros FL results table. unfold build_table.
  destruct (rows_of_columns (sorted_by_name results))
    as (rows & -> & Hnames & _).
  destruct (percent_ok (total_passed (sum_totals results))
                       (total_attempted (sum_totals results))) as [t ->].
  intros [= <-]. simpl. rewrite Hnames. split; [|split].
  - apply sorted_names, sorted_by_name_sorted.
  - apply Permutation_map, sorted_by_name_perm.
  - rewrite <- (length_map row_test), Hnames, length_map.
    apply Permutation_length, sorted_by_name_perm.
Qed.

Lemma table_rows_sorted_by_name_witness :
  let a := OfModule (mkModuleResult "z" "zeta" (LoadedModule "zeta") 10
                                    (mkTestResults 0 1)) in
  let b := OfModule (mkModuleResult "a" "alpha" (LoadedModule "alpha") 20
                                    (mkTestResults 1 2)) in
  match @build_table ExactFloat [a; b] with
  | Ok table => map row_test (body table) = ["alpha"; "zeta"]
                /\ List.length (body table) = 2%nat
  | Raise _ => False
  end.
Proof.
  intros a b.
  destruct (@build_table ExactFloat [a; b]) as [table|e] eqn:E;
    [|vm_compute in E; discriminate E].
  split.
  - vm_compute in E. injection E as <-. reflexivity.
  - apply (table_rows_sorted_by_name ExactFloat [a; b] table E).
Defined.






(** * Further properties of [main] *)

Lemma main_printed_inv {FL : PyFloat} (env : Env) (args : Namespace)
      (w : World) (table : Table) :
  fst (main env args w) = Printed table ->
  exists results,
    fst (test_targets env args w) = Ok results
    /\ build_table results = Ok table
    /\ fail_fast args && has_errors results = false.
Proof.
  rewrite main_outcome.
  destruct (fst (test_targets env args w)) as [results|e]; [|discriminate].
  destruct (fail_fast args && has_errors results) eqn:E; [discriminate|].
  destruct (build_table results) as [t|e] eqn:Hb; [|discriminate].
  intros [= <-]. exists results. auto.
Qed.



Lemma run_results_in_range (env : Env) (args : Namespace) (w : World)
      (results : list TargetResult) :
  engine_counts_in_range env ->
  fst (test_targets env args w) = Ok results ->
  Forall (fun r => counts_in_range (tests r) /\ keeps args r = true) results.
Proof.
  intros [Hmod Hfile]. rewrite test_targets_value.
  destruct (each_result env args (targets args)) as [rs|e] eqn:E;
    [|discriminate].
  simpl. intros [= <-].
  apply each_result_members in E. rewrite Forall_forall in *.
  intros r Hin. apply filter_In in Hin. destruct Hin as [Hin Hk].
  split; [|exact Hk].
  destruct (E r Hin) as (t & _ & Hr).
  destruct (target_result_tests env t args r Hr)
    as [(m & run & Er & -> & _) | (f & run & Er & -> & _)].
  - exact (Hmod _ _ _ Er).
  - exact (Hfile _ _ _ Er).
Qed.

Lemma has_errors_false (results : list TargetResult) :
  has_errors results = false ->
  Forall (fun r => failed (tests r) <= 0) results.
Proof.
  unfold has_errors. induction results as [|r rs IH]; simpl; [constructor|].
  intros H. apply orb_false_iff in H. destruct H as [Hr Hrs].
  constructor; [|apply IH; exact Hrs].
  destruct (failed (tests r) >? 0) eqn:E; [discriminate|].
  rewrite Z.gtb_ltb in E. apply Z.ltb_ge in E. exact E.
Qed.

Lemma sum_of_zero (field : TargetResult -> Z) (rs : list TargetResult) :
  Forall (fun r => field r = 0) rs -> sum_of field rs = 0.
Proof.
  induction 1 as [|r rs Hr _ IH]; simpl; [reflexivity|]. rewrite Hr, IH.
  reflexivity.
Qed.

(** X13: under fail-fast a printed table shows no failure.  If the
    engine reports counts with [0 <= failed <= attempted] and [main] prints
    a table although fail-fast is on, every row and the summary row show a
    failed count of zero. *)
Theorem fail_fast_table_shows_no_failure :
  forall (FL : PyFloat) (env : Env) (args : Namespace) (w : World)
         (table : Table),
    engine_counts_in_range env ->
    fail_fast args = true ->
    fst (main env args w) = Printed table ->
    Forall (fun row => row_failed row = 0) (body table)
    /\ row_failed (summary table) = 0.
Proof.
  intros FL env args w table Hrange Hff Hp.
  destruct (main_printed_inv env args w table Hp) as (rs & Hrun & Hb & Hno).
  rewrite Hff in Hno. simpl in Hno.
  assert (Hzero : Forall (fun r => failed (tests r) = 0) rs).
  { pose proof (run_results_in_range env args w rs Hrange Hrun) as H1.
    pose proof (has_errors_false rs Hno) as H2.
    rewrite Forall_forall in *. intros r Hin.
    destruct (H1 r Hin) as [[Hlo _] _]. specialize (H2 r Hin). lia. }
  unfold build_table in Hb.
  destruct (rows_of_columns (sorted_by_name rs))
    as (rows & Hrows & _ & _ & _ & Hf & _).
  rewrite Hrows in Hb.
  destruct (percent_ok (total_passed (sum_totals rs))
                       (total_attempted (sum_totals rs))) as [t Ht].
  rewrite Ht in Hb. injection Hb as <-. simpl. split.
  - assert (Hz : Forall (fun z => z = 0) (map row_failed rows)).
    { rewrite Hf. rewrite Forall_forall in *. intros z Hz.
      apply in_map_iff in Hz. destruct Hz as (r & <- & Hin).
      apply Hzero. apply (Permutation_in _ (sorted_by_name_perm rs) Hin). }
    rewrite Forall_forall in *. intros row Hin. apply Hz.
    apply in_map. exact Hin.
  - rewrite sum_totals_fields. simpl. apply sum_of_zero. exact Hzero.
Qed.

Lemma fail_fast_table_shows_no_failure_witness :
  match fst (@main ExactFloat demo_env
               (demo_args true None ["all.green"; "README.md"]) init_world) with
  | Printed table => row_failed (summary table) = 0
  | _ => False
  end.
Proof.
  destruct (fst (@main ExactFloat demo_env
                   (demo_args true None ["all.green"; "README.md"])
                   init_world)) as [table| |] eqn:E;
    try (vm_compute in E; discriminate E).
  apply (fail_fast_table_shows_no_failure ExactFloat demo_env
           (demo_args true None ["all.green"; "README.md"]) init_world table
           demo_engine_in_range eq_refl E).
Defined.

(** X14: with the only-empty filter nothing can fail.  If the engine
    reports counts with [0 <= failed <= attempted] and no target raises,
    then under [--empty] every result kept has no example attempted, passed
    or failed, so [has_errors] is false and [main] prints the table, with or
    without fail-fast; every row of it shows the placeholder. *)
Theorem only_empty_run_always_prints :
  forall (FL : PyFloat) (env : Env) (args : Namespace) (w : World)
         (results : list TargetResult),
    engine_counts_in_range env ->
    empty args = Some true ->
    fst (test_targets env args w) = Ok results ->
    Forall (fun r => attempted (tests r) = 0 /\ failed (tests r) = 0
                     /\ tests_passed r = 0) results
    /\ has_errors results = false
    /\ exists table,
        fst (main env args w) = Printed table
        /\ Forall (fun row => row_percent row = mkText "-" "bright black")
                  (body table)
        /\ row_percent (summary table) = mkText "-" "bright black".
Proof.
  intros FL env args w results Hrange Hempty Hrun.
  assert (Hall : Forall (fun r => attempted (tests r) = 0
                                  /\ failed (tests r) = 0
                                  /\ tests_passed r = 0) results).
  { pose proof (run_results_in_range env args w results Hrange Hrun) as H1.
    revert H1. apply Forall_impl. intros r [[Hlo Hhi] Hk].
    unfold keeps in Hk. rewrite Hempty in Hk. apply Z.eqb_eq in Hk.
    unfold tests_passed. lia. }
  assert (Hno : has_errors results = false).
  { unfold has_errors. clear -Hall.
    induction Hall as [|r rs (_ & Hf & _) _ IH]; simpl; [reflexivity|].
    rewrite Hf, IH. reflexivity. }
  split; [exact Hall|]. split; [exact Hno|].
  rewrite main_outcome, Hrun, Hno, andb_false_r.
  unfold build_table.
  destruct (rows_of_columns (sorted_by_name results))
    as (rows & -> & _ & _ & _ & _ & Hpct).
  assert (Hatt : total_attempted (sum_totals results) = 0).
  { rewrite sum_totals_fields. simpl. apply sum_of_zero.
    revert Hall. apply Forall_impl. tauto. }
  rewrite Hatt. simpl.
  eexists. split; [reflexivity|]. simpl. split; [|reflexivity].
  assert (Hsorted : Forall (fun r => attempted (tests r) = 0)
                           (sorted_by_name results)).
  { rewrite Forall_forall in *. intros r Hin.
    apply (Permutation_in _ (sorted_by_name_perm results)) in Hin.
    apply Hall. exact Hin. }
  clear -Hpct Hsorted.
  induction Hpct as [|r row rs rows Hp _ IH]; [constructor|].
  inversion Hsorted as [|? ? Hr Hrs]; subst.
  constructor; [|apply IH; exact Hrs].
  rewrite Hr in Hp. unfold percent in Hp. simpl in Hp.
  injection Hp as <-. reflexivity.
Qed.

Lemma only_empty_run_always_prints_witness :
  has_errors
    (match fst (test_targets demo_env
                  (demo_args true (Some true) ["pkg/sub/mod.py"; "no.examples"])
                  init_world) with
     | Ok results => results
     | Raise _ => []
     end) = false.
Proof.
  destruct (fst (test_targets demo_env
                   (demo_args true (Some true)
                              ["pkg/sub/mod.py"; "no.examples"])
                   init_world)) as [results|e] eqn:E;
    [|reflexivity].
  apply (only_empty_run_always_prints ExactFloat demo_env
           (demo_args true (Some true) ["pkg/sub/mod.py"; "no.examples"])
           init_world results demo_engine_in_range eq_refl E).
Defined.

(** X15: [has_errors] and the failed total agree.  When no result has a
    negative failed count, [has_errors] holds exactly when the failed total
    of the summing loop is positive. *)
Theorem has_errors_iff_failed_total :
  forall results : list TargetResult,
    Forall (fun r => 0 <= failed (tests r)) results ->
    (has_errors results = true <-> total_failed (sum_totals results) > 0).
Proof.
  intros results Hnn. rewrite sum_totals_fields. simpl.
  induction Hnn as [|r rs Hr Hrs IH]; simpl.
  - split; [discriminate | lia].
  - assert (Hsum : 0 <= sum_of (fun r => failed (tests r)) rs).
    { clear -Hrs. induction Hrs; simpl; lia. }
    unfold has_errors in *. simpl. rewrite orb_true_iff, IH.
    rewrite Z.gtb_ltb, Z.ltb_lt. lia.
Qed.

Lemma has_errors_iff_failed_total_witness :
  let a := OfModule (mkModuleResult "a" "a" (LoadedModule "a") 3000
                                    (mkTestResults 1 3)) in
  has_errors [a] = true <-> total_failed (sum_totals [a]) > 0.
Proof.
  intros a. apply (has_errors_iff_failed_total [a]).
  repeat constructor. simpl. lia.
Defined.

(** * The header panel *)

Lemma relative_to_ok_inv (d : Path.t) :
  forall p rest, Path.relative_to p d = Ok rest -> p = d ++ rest.
Proof.
  induction d as [|x d IH]; intros p rest; destruct p as [|y p]; simpl;
    try discriminate.
  - intros [= <-]. reflexivity.
  - intros [= <-]. reflexivity.
  - destruct (string_dec x y) as [<- | _]; [|discriminate].
    intros H. apply IH in H. subst p. reflexivity.
Qed.

Lemma relative_target_has_no_root (t : string) :
  String.prefix "/" t = false -> pure_root (parse_path t) = EmptyString.
Proof.
  intros H. unfold parse_path. simpl pure_root.
  destruct t as [|c t]; [reflexivity|].
  cbn [String.prefix] in *.
  destruct (ascii_dec "/" c); [destruct t; discriminate H|reflexivity].
Qed.

(** X16: what the header panel lists.  There is one item per target, in
    the order of the targets; a target that does not start with a slash is
    listed as it was given; and an item differs from its target only for an
    absolute path below the working directory, which is then listed by its
    components below that directory. *)
Theorem panel_lists_targets :
  forall (cwd : Path.t) (targets : list string),
    List.length (panel_items cwd targets) = List.length targets
    /\ (forall t, String.prefix "/" t = false -> panel_item cwd t = t)
    /\ (Forall (fun t => String.prefix "/" t = false) targets ->
        panel_items cwd targets = targets)
    /\ (forall t,
           panel_item cwd t <> t ->
           pure_root (parse_path t) = "/"
           /\ exists rest,
               pure_parts (parse_path t) = cwd ++ rest
               /\ panel_item cwd t
                  = pure_to_string (mkPurePath EmptyString rest)).
Proof.
  intros cwd targets.
  assert (Hrel : forall t, String.prefix "/" t = false -> panel_item cwd t = t).
  { intros t Ht. unfold panel_item, pure_relative_to.
    rewrite (relative_target_has_no_root t Ht). reflexivity. }
  split; [apply length_map|]. split; [exact Hrel|]. split.
  - unfold panel_items.
    induction 1 as [|t ts Ht _ IH]; simpl; [reflexivity|].
    rewrite (Hrel t Ht), IH. reflexivity.
  - intros t. unfold panel_item, pure_relative_to.
    destruct (String.eqb (pure_root (parse_path t)) "/") eqn:Hroot;
      [|congruence].
    apply String.eqb_eq in Hroot.
    destruct (Path.relative_to (pure_parts (parse_path t)) cwd)
      as [rest|e] eqn:Hrest; [|congruence].
    intros _. split; [exact Hroot|]. exists rest.
    split; [apply relative_to_ok_inv; exact Hrest | reflexivity].
Qed.

Lemma panel_lists_targets_witness :
  panel_items ["proj"] ["pkg/sub/mod.py"; "os.path"]
  = ["pkg/sub/mod.py"; "os.path"]
  /\ panel_item ["proj"] "/proj/pkg/sub/mod.py" = "pkg/sub/mod.py".
Proof.
  split.
  - apply (proj1 (proj2 (proj2 (panel_lists_targets
                                  ["proj"] ["pkg/sub/mod.py"; "os.path"])))).
    repeat constructor.
  - destruct (proj2 (proj2 (proj2 (panel_lists_targets ["proj"] [])))
                    "/proj/pkg/sub/mod.py") as (_ & rest & Hparts & ->).
    + vm_compute. discriminate.
    + vm_compute in Hparts. injection Hparts as <-. reflexivity.
Defined.

Lemma each_result_same_flags (env : Env) (args args' : Namespace) :
  fail_fast args' = fail_fast args ->
  forall todo, each_result env args' todo = each_result env args todo.
Proof.
  intros Hff todo.
  assert (Hone : forall t, target_result env t args' = target_result env t args).
  { intros t. unfold target_result, option_flags_of. rewrite Hff. reflexivity. }
  induction todo as [|t rest IH]; simpl; [reflexivity|].
  rewrite Hone, IH. reflexivity.
Qed.

Lemma processed_same_flags (env : Env) (args args' : Namespace) :
  fail_fast args' = fail_fast args ->
  forall todo,
    flat_map (fun t => target_events env t args') (processed env args' todo)
    = flat_map (fun t => target_events env t args) (processed env args todo).
Proof.
  intros Hff todo.
  assert (Hr : forall t, target_result env t args' = target_result env t args).
  { intros t. unfold target_result, option_flags_of. rewrite Hff. reflexivity. }
  assert (He : forall t, target_events env t args' = target_events env t args).
  { intros t. unfold target_events, option_flags_of. rewrite Hff. reflexivity. }
  induction todo as [|t rest IH]; [reflexivity|].
  cbn [processed flat_map]. rewrite Hr, He.
  destruct (is_ok (target_result env t args)); [|reflexivity].
  rewrite IH. reflexivity.
Qed.

(** X17: the panel and the verbosity do not change a run.  Two
    invocations whose arguments agree on fail-fast, on the empty-filter and
    on the targets end in the same way, whatever their [--panel] and
    [--verbose]; the panel only adds its own event, before any target is
    looked at. *)
Theorem main_ignores_panel_and_verbose :
  forall (FL : PyFloat) (env : Env) (args : Namespace) (v : Z) (p : bool)
         (w : World),
    fst (main env (mkArgs v (fail_fast args) (empty args) p (targets args)) w)
    = fst (main env args w)
    /\ exists run,
        trace (snd (main env (mkArgs v (fail_fast args) (empty args) false
                                     (targets args)) w))
        = trace w ++ run
        /\ trace (snd (main env (mkArgs v (fail_fast args) (empty args) true
                                        (targets args)) w))
           = trace w ++ EvHeaderPanel (targets args) :: run.
Proof.
  intros FL env args v p w. split.
  - rewrite !main_outcome, !test_targets_value. simpl.
    rewrite (each_result_same_flags env args
               (mkArgs v (fail_fast args) (empty args) p (targets args))
               eq_refl).
    destruct (each_result env args (targets args)) as [rs|e]; [|reflexivity].
    simpl.
    replace (filter (keeps (mkArgs v (fail_fast args) (empty args) p
                                   (targets args))) rs)
      with (filter (keeps args) rs); [reflexivity|].
    apply filter_ext. intros r. reflexivity.
  - exists (flat_map (fun t => target_events env t args)
                     (processed env args (targets args))).
    rewrite !main_trace. simpl.
    rewrite !(processed_same_flags env args
                (mkArgs v (fail_fast args) (empty args) _ (targets args))
                eq_refl).
    split; reflexivity.
Qed.
